(** * Pentago: a shallow embedding of [Pentago.py] and its properties

    The Python program keeps one [Pentago] object whose methods mutate a
    6x6 list of lists of one-character strings.  Here every method is a
    function in a state-and-exception monad over the object it mutates:
    a raised Python exception ends the computation and keeps the state as
    it was at the point of the raise, exactly as an uncaught exception
    leaves the mutated objects behind.

    Strings are sequences of one-byte characters; [upper] and [lower] act
    on the ASCII letters, which is what Python's [str.upper] and
    [str.lower] do on that range. *)

From Stdlib Require Import ZArith List String Ascii Bool Lia Permutation.
From Stdlib Require Import DecimalString.
Import ListNotations.

Local Open Scope string_scope.
Local Open Scope list_scope.
Local Open Scope Z_scope.

(** ** Python values, exceptions and the monad *)

(** The exceptions the modelled code can raise. *)
Inductive exn : Type :=
| KeyError
| ValueError
| IndexError
| UnboundLocalError.

Inductive outcome (A : Type) : Type :=
| Ret (a : A)
| Raise (e : exn).

Arguments Ret {A} a.
Arguments Raise {A} e.

(** The values that [make_move], [is_valid_move] and the stored game state
    range over: a [str] or a [bool]. *)
Inductive pyval : Type :=
| PStr (s : string)
| PBool (b : bool).

(** Python [==] on these values: a [str] never equals a [bool]. *)
Definition py_eq (x y : pyval) : bool :=
  match x, y with
  | PStr s, PStr t => String.eqb s t
  | PBool a, PBool b => Bool.eqb a b
  | _, _ => false
  end.

Definition py_ne (x y : pyval) : bool := negb (py_eq x y).

(** [x is True]. *)
Definition is_True (x : pyval) : bool :=
  match x with
  | PBool true => true
  | _ => false
  end.

(** Truth value of [x] in an [if]. *)
Definition truthy (x : pyval) : bool :=
  match x with
  | PBool b => b
  | PStr s => negb (String.eqb s "")
  end.

(** [==] between two values that are [None] or a [str]. *)
Definition opt_str_eq (x y : option string) : bool :=
  match x, y with
  | Some s, Some t => String.eqb s t
  | None, None => true
  | _, _ => false
  end.

Definition ST (S A : Type) : Type := S -> outcome A * S.

Definition ret {S A : Type} (a : A) : ST S A := fun s => (Ret a, s).

Definition raise {S A : Type} (e : exn) : ST S A := fun s => (Raise e, s).

Definition bind {S A B : Type} (m : ST S A) (k : A -> ST S B) : ST S B :=
  fun s =>
    match m s with
    | (Ret a, s') => k a s'
    | (Raise e, s') => (Raise e, s')
    end.

Definition get {S : Type} : ST S S := fun s => (Ret s, s).

Definition put {S : Type} (s : S) : ST S unit := fun _ => (Ret tt, s).

(** An expression that reads nothing from the state. *)
Definition pure {S A : Type} (o : outcome A) : ST S A := fun s => (o, s).

Declare Scope st_scope.
Delimit Scope st_scope with st.

Notation "x <- m ;; k" := (bind m (fun x => k))
  (at level 61, m at next level, right associativity) : st_scope.
Notation "' p <- m ;; k" := (bind m (fun x => let p := x in k))
  (at level 61, p pattern, m at next level, right associativity) : st_scope.
Notation "m ;; k" := (bind m (fun _ => k))
  (at level 61, right associativity) : st_scope.

Local Open Scope st_scope.

(** [for x in l: body] with a body that returns nothing. *)
Fixpoint for_ {S A : Type} (l : list A) (body : A -> ST S unit) : ST S unit :=
  match l with
  | [] => ret tt
  | x :: l' => body x ;; for_ l' body
  end.

(** A loop that appends one computed element per iteration. *)
Fixpoint collect {S A B : Type} (l : list A) (f : A -> ST S B) : ST S (list B) :=
  match l with
  | [] => ret []
  | x :: l' => y <- f x ;; ys <- collect l' f ;; ret (y :: ys)
  end.

(** [for x in l: if cond(x): return True], falling through with [False]. *)
Fixpoint any_ {S A : Type} (l : list A) (cond : A -> ST S bool) : ST S bool :=
  match l with
  | [] => ret false
  | x :: l' => b <- cond x ;; if b then ret true else any_ l' cond
  end.

(** [c1 and c2 and ...], evaluated left to right and stopping at the first
    false conjunct. *)
Fixpoint and_ {S : Type} (cs : list (ST S bool)) : ST S bool :=
  match cs with
  | [] => ret true
  | c :: cs' => b <- c ;; if b then and_ cs' else ret false
  end.

(** [range(lo, hi)]. *)
Definition range (lo hi : Z) : list Z :=
  map (fun k => lo + Z.of_nat k) (seq 0 (Z.to_nat (hi - lo))).

(** ** Lists and strings as Python indexes them *)

(** The position a Python index denotes in a sequence of length [n]:
    negative indexes count from the end. *)
Definition py_index (n : nat) (i : Z) : option nat :=
  if (0 <=? i) && (i <? Z.of_nat n) then Some (Z.to_nat i)
  else if (- Z.of_nat n <=? i) && (i <? 0) then Some (Z.to_nat (Z.of_nat n + i))
  else None.

(** [l[i]]. *)
Definition getitem {A : Type} (l : list A) (i : Z) : outcome A :=
  match py_index (List.length l) i with
  | Some k =>
      match nth_error l k with
      | Some x => Ret x
      | None => Raise IndexError
      end
  | None => Raise IndexError
  end.

Fixpoint replace_nth {A : Type} (k : nat) (x : A) (l : list A) : list A :=
  match l, k with
  | [], _ => []
  | _ :: l', O => x :: l'
  | y :: l', S k' => y :: replace_nth k' x l'
  end.

(** [l[i] = x]. *)
Definition setitem {A : Type} (l : list A) (i : Z) (x : A) : outcome (list A) :=
  match py_index (List.length l) i with
  | Some k => Ret (replace_nth k x l)
  | None => Raise IndexError
  end.

(** [s[i]] on a [str]: a string of one character. *)
Definition str_getitem (s : string) (i : Z) : outcome string :=
  match getitem (list_ascii_of_string s) i with
  | Ret a => Ret (String a "")
  | Raise e => Raise e
  end.

Definition lower_ascii (a : ascii) : ascii :=
  let n := nat_of_ascii a in
  if (65 <=? n)%nat && (n <=? 90)%nat then ascii_of_nat (n + 32) else a.

Definition upper_ascii (a : ascii) : ascii :=
  let n := nat_of_ascii a in
  if (97 <=? n)%nat && (n <=? 122)%nat then ascii_of_nat (n - 32) else a.

Fixpoint map_string (f : ascii -> ascii) (s : string) : string :=
  match s with
  | EmptyString => EmptyString
  | String a s' => String (f a) (map_string f s')
  end.

(** [s.lower()] and [s.upper()]. *)
Definition lower (s : string) : string := map_string lower_ascii s.
Definition upper (s : string) : string := map_string upper_ascii s.

(** [int(s)] for the one-character strings it is called on: a decimal
    digit gives its value, any other character raises [ValueError]. *)
Definition int_ (s : string) : outcome Z :=
  match s with
  | String a EmptyString =>
      let n := nat_of_ascii a in
      if (48 <=? n)%nat && (n <=? 57)%nat then Ret (Z.of_nat (n - 48))
      else Raise ValueError
  | _ => Raise ValueError
  end.

(** [str(n)] for an [int]. *)
Definition str_of_int (n : Z) : string := NilZero.string_of_int (Z.to_int n).

(** [d[k]] on a dict given as its list of items. *)
Fixpoint dict_getitem {K V : Type} (eqb : K -> K -> bool) (d : list (K * V)) (k : K)
  : outcome V :=
  match d with
  | [] => Raise KeyError
  | (k', v) :: d' => if eqb k k' then Ret v else dict_getitem eqb d' k
  end.

(** ** The board *)

(** [GameBoard._game_board]: a list of rows, each a list of the strings
    ['.'], ['W'] and ['B'].  The rows are distinct list objects, so a write
    to one row leaves the others alone. *)
Definition board : Type := list (list string).

(** [b[r][c]]. *)
Definition get2 (r c : Z) : ST board string :=
  fun b =>
    match getitem b r with
    | Ret row => (getitem row c, b)
    | Raise e => (Raise e, b)
    end.

(** [b[r][c] = v]: the row object [b[r]] is updated in place. *)
Definition set2 (r c : Z) (v : string) : ST board unit :=
  fun b =>
    match getitem b r with
    | Ret row =>
        match setitem row c v with
        | Ret row' =>
            match setitem b r row' with
            | Ret b' => (Ret tt, b')
            | Raise e => (Raise e, b)
            end
        | Raise e => (Raise e, b)
        end
    | Raise e => (Raise e, b)
    end.

(** [m[r][c]] on a local list of lists. *)
Definition at2 (m : list (list string)) (r c : Z) : outcome string :=
  match getitem m r with
  | Ret row => getitem row c
  | Raise e => Raise e
  end.

(** ** class SubBoard *)

Module SubBoard.

(** A sub-board holds its anchor and a reference to the main board; the
    reference is the very list [GameBoard._game_board] holds, so the
    methods below run on the main board itself. *)
Record t : Type := mk { _start_row : Z; _start_col : Z }.

Definition get_sub_board (self : t) : ST board (list (list string)) :=
  collect (range 0 3) (fun row =>
    collect (range 0 3) (fun col =>
      get2 (_start_row self + row) (_start_col self + col))).

(** The list display bound to [rotated_board]; no binding is made when
    [rotation] is neither ['C'] nor ['A']. *)
Definition rotated_board (rotation : string) (sub_board : list (list string))
  : ST board (option (list (list string))) :=
  let display (cells : list (list (Z * Z))) :=
    rows <- collect cells (fun row =>
              collect row (fun rc => pure (at2 sub_board (fst rc) (snd rc)))) ;;
    ret (Some rows) in
  if String.eqb rotation "C" then
    display [ [(2, 0); (1, 0); (0, 0)];
              [(2, 1); (1, 1); (0, 1)];
              [(2, 2); (1, 2); (0, 2)] ]
  else if String.eqb rotation "A" then
    display [ [(0, 2); (1, 2); (2, 2)];
              [(0, 1); (1, 1); (2, 1)];
              [(0, 0); (1, 0); (2, 0)] ]
  else ret None.

Definition rotate (self : t) (rotation : string) : ST board unit :=
  sub_board <- get_sub_board self ;;
  rotated <- rotated_board rotation sub_board ;;
  for_ (range 0 3) (fun row =>
    for_ (range 0 3) (fun col =>
      v <- match rotated with
           | Some rb => pure (at2 rb row col)
           | None => raise UnboundLocalError
           end ;;
      set2 (_start_row self + row) (_start_col self + col) v)).

End SubBoard.

(** ** class GameBoard *)

Module GameBoard.

Definition init : board :=
  [ ["."; "."; "."; "."; "."; "."];
    ["."; "."; "."; "."; "."; "."];
    ["."; "."; "."; "."; "."; "."];
    ["."; "."; "."; "."; "."; "."];
    ["."; "."; "."; "."; "."; "."];
    ["."; "."; "."; "."; "."; "."] ].

Definition _sub_boards : list (Z * SubBoard.t) :=
  [ (1, SubBoard.mk 0 0);
    (2, SubBoard.mk 0 3);
    (3, SubBoard.mk 3 0);
    (4, SubBoard.mk 3 3) ].

Definition get_sub_board (sub_board_num : Z) : ST board (list (list string)) :=
  sb <- pure (dict_getitem Z.eqb _sub_boards sub_board_num) ;;
  SubBoard.get_sub_board sb.

Definition update_game_board (marble_color : string) (position : Z * Z)
  : ST board unit :=
  let '(row, col) := position in
  set2 row col marble_color.

Definition update_board_from_sub_boards : ST board unit :=
  let sub_board_map := [ (1, (0, 0)); (2, (0, 3)); (3, (3, 0)); (4, (3, 3)) ] in
  for_ sub_board_map (fun entry =>
    let '(sub_board_num, (starting_row, starting_column)) := entry in
    sub_board <- get_sub_board sub_board_num ;;
    for_ (range 0 3) (fun row =>
      for_ (range 0 3) (fun column =>
        v <- pure (at2 sub_board row column) ;;
        set2 (starting_row + row) (starting_column + column) v))).

Definition rotate_sub_board (sub_board : Z) (rotation : string) : ST board unit :=
  sb <- pure (dict_getitem Z.eqb _sub_boards sub_board) ;;
  SubBoard.rotate sb rotation ;;
  update_board_from_sub_boards.

Definition is_full : ST board bool :=
  b <- get ;;
  ret (forallb (fun row => negb (existsb (String.eqb ".") row)) b).

(** [b[r1][c1] == color and ... and b[r5][c5] == color]: the cells are
    read in the order written and reading stops at the first one that
    differs from [color]. *)
Definition all_color (color : string) (cells : list (Z * Z)) : ST board bool :=
  and_ (map (fun rc => v <- get2 (fst rc) (snd rc) ;; ret (String.eqb v color)) cells).

Definition check_five_in_a_row (color : string) : ST board bool :=
  (* Check rows *)
  found <- any_ (range 0 6) (fun row =>
             any_ (range 0 2) (fun column =>
               all_color color
                 [ (row, column); (row, column + 1); (row, column + 2);
                   (row, column + 3); (row, column + 4) ])) ;;
  if found then ret true else
  (* Check columns *)
  found <- any_ (range 0 6) (fun column =>
             any_ (range 0 2) (fun row =>
               all_color color
                 [ (row, column); (row + 1, column); (row + 2, column);
                   (row + 3, column); (row + 4, column) ])) ;;
  if found then ret true else
  (* Check diagonals from top-left to bottom-right *)
  found <- any_ (range 0 2) (fun row =>
             any_ (range 0 2) (fun column =>
               all_color color
                 [ (row, column); (row + 1, column + 1); (row + 2, column + 2);
                   (row + 3, column + 3); (row + 4, column + 4) ])) ;;
  if found then ret true else
  (* Check diagonals from top-right to bottom-left *)
  found <- any_ (range 0 2) (fun row =>
             any_ (range 2 6) (fun column =>
               all_color color
                 [ (row, column); (row + 1, column - 1); (row + 2, column - 2);
                   (row + 3, column - 3); (row + 4, column - 4) ])) ;;
  if found then ret true else
  ret false.

Definition check_end_conditions (current_player_color : string) : ST board pyval :=
  won <- check_five_in_a_row current_player_color ;;
  if won then ret (PBool true) else ret (PBool false).

End GameBoard.

(** ** class GameLog *)

Module GameLog.

Definition t : Type := list string.

Definition init : t := [].

(** [str] of a tuple of two ints. *)
Definition str_of_position (position : Z * Z) : string :=
  "(" ++ str_of_int (fst position) ++ ", " ++ str_of_int (snd position) ++ ")".

Definition log_move (marble_color : string) (position : Z * Z) (sub_board : Z)
           (rotation : string) : ST t unit :=
  let rotation_converted := if String.eqb rotation "C" then "Clockwise" else "A" in
  log <- get ;;
  put (log ++ [marble_color ++ " was placed on " ++ str_of_position position
               ++ ", sub-board " ++ str_of_int sub_board
               ++ " was rotated " ++ rotation_converted]%string)%list.

Definition log_game_state (game_state : string) : ST t unit :=
  log <- get ;;
  put (log ++ ["Game State: " ++ game_state]%string)%list.

End GameLog.

(** ** class Pentago *)

Module Pentago.

(** The engine's attributes.  [_current_player] and [_opponent] hold
    [None] or a [str]; [_game_state] holds whatever [set_game_state] was
    given, a [str] or a [bool]. *)
Record t : Type := mk {
  _board : board;
  _current_player : option string;
  _opponent : option string;
  _game_state : pyval;
  _game_log : GameLog.t
}.

(** [Pentago()]. *)
Definition init : t :=
  mk GameBoard.init None None (PStr "UNFINISHED") GameLog.init.

(** Running a method of [self._board] or of [self._game_log]. *)
Definition on_board {A : Type} (m : ST board A) : ST t A :=
  fun self =>
    let '(r, b) := m (_board self) in
    (r, mk b (_current_player self) (_opponent self) (_game_state self)
           (_game_log self)).

Definition on_log {A : Type} (m : ST GameLog.t A) : ST t A :=
  fun self =>
    let '(r, l) := m (_game_log self) in
    (r, mk (_board self) (_current_player self) (_opponent self)
           (_game_state self) l).

Definition get_current_player : ST t (option string) :=
  fun self => (Ret (_current_player self), self).

Definition set_current_player (marble_color : option string) : ST t unit :=
  fun self =>
    (Ret tt, mk (_board self) marble_color (_opponent self) (_game_state self)
                (_game_log self)).

Definition get_opponent : ST t (option string) :=
  fun self => (Ret (_opponent self), self).

Definition set_opponent (opponent : option string) : ST t unit :=
  fun self =>
    (Ret tt, mk (_board self) (_current_player self) opponent (_game_state self)
                (_game_log self)).

Definition get_game_state : ST t pyval :=
  fun self => (Ret (_game_state self), self).

Definition set_game_state (game_state : pyval) : ST t unit :=
  fun self =>
    (Ret tt, mk (_board self) (_current_player self) (_opponent self) game_state
                (_game_log self)).

Definition is_board_full : ST t bool := on_board GameBoard.is_full.

Definition letter_conversion : list (string * Z) :=
  [ ("a", 0); ("b", 1); ("c", 2); ("d", 3); ("e", 4); ("f", 5) ].

(** A static method: it reads no attribute, so it is a plain function
    into [outcome]. *)
Definition convert_position (position : string) : outcome (Z * Z) :=
  match str_getitem position 0 with
  | Raise e => Raise e
  | Ret letter =>
      match dict_getitem String.eqb letter_conversion (lower letter) with
      | Raise e => Raise e
      | Ret row_index =>
          match str_getitem position 1 with
          | Raise e => Raise e
          | Ret digit =>
              match int_ digit with
              | Raise e => Raise e
              | Ret column_index => Ret (row_index, column_index)
              end
          end
      end
  end.

Definition is_valid_move (position : Z * Z) (player : option string) : ST t pyval :=
  (* Check if the game is already finished *)
  game_state <- get_game_state ;;
  if py_ne game_state (PStr "UNFINISHED") then ret (PStr "game is finished") else
  (* Check if it's the correct players turn *)
  opponent <- get_opponent ;;
  if opt_str_eq player opponent then ret (PStr "not this player's turn") else
  (* Checks if the cell at position is empty *)
  let '(row, column) := position in
  cell <- on_board (get2 row column) ;;
  if negb (String.eqb cell ".") then ret (PStr "position is not empty") else
  ret (PBool true).

Definition switch_player : ST t unit :=
  current <- get_current_player ;;
  if opt_str_eq current (Some "B") then
    set_current_player (Some "W") ;; set_opponent (Some "B")
  else
    current <- get_current_player ;;
    if opt_str_eq current (Some "W") then
      set_current_player (Some "B") ;; set_opponent (Some "W")
    else ret tt.

Definition convert_color : list (option string * string) :=
  [ (Some "W", "WHITE"); (Some "B", "BLACK") ].

Definition make_move (marble_color position : string) (sub_board : Z)
           (rotation : string) : ST t pyval :=
  (* Convert the position to correct indices *)
  position <- pure (convert_position position) ;;
  (* Convert marble color to marble and update current player *)
  let marble_color := if String.eqb (upper marble_color) "WHITE" then "W" else "B" in
  set_current_player (Some marble_color) ;;
  (* If the move is valid *)
  player <- get_current_player ;;
  validation_result <- is_valid_move position player ;;
  if negb (is_True validation_result) then ret validation_result else
  (* Place a marble on the board *)
  on_board (GameBoard.update_game_board marble_color position) ;;
  (* Check for a win before rotating *)
  game_state <- on_board (GameBoard.check_end_conditions marble_color) ;;
  if py_ne game_state (PStr "UNFINISHED") then
    set_game_state game_state ;; ret (PBool true)
  else
  (* Rotate the sub-board *)
  on_board (GameBoard.rotate_sub_board sub_board rotation) ;;
  (* Update the main board from sub-boards *)
  on_board GameBoard.update_board_from_sub_boards ;;
  (* Define player win *)
  current_player_win <- on_board (GameBoard.check_end_conditions marble_color) ;;
  (* Define the opponents color *)
  let opponent_color := if String.eqb marble_color "B" then "W" else "B" in
  set_opponent (Some opponent_color) ;;
  (* Define opponent win *)
  opponent_win <- on_board (GameBoard.check_end_conditions opponent_color) ;;
  (* Check for wins after rotating and convert colors *)
  current <- get_current_player ;;
  current_player_color <- pure (dict_getitem opt_str_eq convert_color current) ;;
  opponent <- get_opponent ;;
  current_opponent_color <- pure (dict_getitem opt_str_eq convert_color opponent) ;;
  (* Check for both players winning after rotation *)
  if truthy current_player_win then
    if truthy opponent_win then
      set_game_state (PStr "DRAW") ;; ret (PBool true)
    else
      set_game_state (PStr (current_player_color ++ "_WON")) ;; ret (PBool true)
  else
  (* Check if opponent won *)
  if truthy opponent_win then
    set_game_state (PStr (current_opponent_color ++ "_WON")) ;; ret (PBool true)
  else
  (* Check if the board is full after the move *)
  full <- is_board_full ;;
  if full then
    set_game_state (PStr "DRAW") ;; ret (PBool true)
  else
  (* If there is no win or draw, switch the player and log the move *)
  on_log (GameLog.log_move marble_color position sub_board rotation) ;;
  switch_player ;;
  ret (PBool true).

End Pentago.

(** ** Specification-side notions *)

(** The shape every board of a game has: six rows of six cells. *)
Definition board_6x6 (b : board) : Prop :=
  List.length b = 6%nat /\ Forall (fun row => List.length row = 6%nat) b.

(** The anchors at which a 3x3 window lies inside the grid; the four
    sub-boards of [GameBoard] are among them. *)
Definition window_in_grid (sb : SubBoard.t) : Prop :=
  0 <= SubBoard._start_row sb <= 3 /\ 0 <= SubBoard._start_col sb <= 3.

(** The marble [make_move] derives from its colour argument. *)
Definition marble_of (marble_color : string) : string :=
  if String.eqb (upper marble_color) "WHITE" then "W" else "B".

(** [self] after [self._current_player = marble]. *)
Definition with_current_player (marble : string) (self : Pentago.t) : Pentago.t :=
  Pentago.mk (Pentago._board self) (Some marble) (Pentago._opponent self)
             (Pentago._game_state self) (Pentago._game_log self).

(** One call of [make_move] with its four arguments. *)
Definition call : Type := string * string * Z * string.

Definition call_color (c : call) : string := fst (fst (fst c)).
Definition call_position (c : call) : string := snd (fst (fst c)).

Definition run_call (c : call) : ST Pentago.t pyval :=
  let '(marble_color, position, sub_board, rotation) := c in
  Pentago.make_move marble_color position sub_board rotation.

(** A game: calls made one after the other on the same engine.  A caller
    that catches an exception goes on with the engine as the raise left
    it. *)
Fixpoint play (calls : list call) (self : Pentago.t)
  : list (outcome pyval) * Pentago.t :=
  match calls with
  | [] => ([], self)
  | c :: calls' =>
      let '(o, self') := run_call c self in
      let '(os, final) := play calls' self' in
      (o :: os, final)
  end.

(** The engine after the calls of a game played on a new engine. *)
Definition game_after (calls : list call) : Pentago.t :=
  snd (play calls Pentago.init).

(** What a call returns once the game state is no longer ['UNFINISHED']. *)
Definition finished_answer (c : call) : outcome pyval :=
  match Pentago.convert_position (call_position c) with
  | Ret _ => Ret (PStr "game is finished")
  | Raise e => Raise e
  end.

(** Following the specification's words: a run of five contiguous cells of
    [color] that lies within the grid, along a row, a column or one of the
    two diagonals.  [cell_in_grid] reads a cell whose indices are both in
    0..5 and is [None] elsewhere. *)
Definition cell_in_grid (b : board) (r c : Z) : option string :=
  if (0 <=? r) && (r <? 6) && (0 <=? c) && (c <? 6)
  then match nth_error b (Z.to_nat r) with
       | Some row => nth_error row (Z.to_nat c)
       | None => None
       end
  else None.

Definition spec_run (b : board) (color : string) (r c dr dc : Z) : bool :=
  forallb (fun k => match cell_in_grid b (r + k * dr) (c + k * dc) with
                    | Some v => String.eqb v color
                    | None => false
                    end)
          [0; 1; 2; 3; 4].

Definition spec_directions : list (Z * Z) := [ (0, 1); (1, 0); (1, 1); (1, -1) ].

Definition spec_five_in_a_row (b : board) (color : string) : bool :=
  existsb (fun r =>
    existsb (fun c =>
      existsb (fun d => spec_run b color r c (fst d) (snd d)) spec_directions)
      (range 0 6))
    (range 0 6).

(** The runs of the specification as lists of cells: every start in the
    grid and every direction, kept when all five cells are in the grid. *)
Definition run_cells (r c dr dc : Z) : list (Z * Z) :=
  map (fun k => (r + k * dr, c + k * dc)) [0; 1; 2; 3; 4].

Definition in_grid (rc : Z * Z) : bool :=
  (0 <=? fst rc) && (fst rc <? 6) && (0 <=? snd rc) && (snd rc <? 6).

Definition runs_in_grid : list (list (Z * Z)) :=
  filter (forallb in_grid)
    (flat_map (fun r =>
       flat_map (fun c =>
         map (fun d => run_cells r c (fst d) (snd d)) spec_directions)
         (range 0 6))
       (range 0 6)).

(** The cell [b[r][c]], read as Python reads it, holds [color]. *)
Definition cell_is (b : board) (color : string) (rc : Z * Z) : bool :=
  match fst (get2 (fst rc) (snd rc) b) with
  | Ret v => String.eqb v color
  | Raise _ => false
  end.

Definition line_is (b : board) (color : string) (cells : list (Z * Z)) : bool :=
  forallb (cell_is b color) cells.

(** The index lists the four loops of [check_five_in_a_row] read, in the
    order of the loops. *)
Definition scanned_lines : list (list (Z * Z)) :=
  flat_map (fun row =>
    map (fun column =>
      [ (row, column); (row, column + 1); (row, column + 2);
        (row, column + 3); (row, column + 4) ]) (range 0 2)) (range 0 6)
  ++
  flat_map (fun column =>
    map (fun row =>
      [ (row, column); (row + 1, column); (row + 2, column);
        (row + 3, column); (row + 4, column) ]) (range 0 2)) (range 0 6)
  ++
  flat_map (fun row =>
    map (fun column =>
      [ (row, column); (row + 1, column + 1); (row + 2, column + 2);
        (row + 3, column + 3); (row + 4, column + 4) ]) (range 0 2)) (range 0 2)
  ++
  flat_map (fun row =>
    map (fun column =>
      [ (row, column); (row + 1, column - 1); (row + 2, column - 2);
        (row + 3, column - 3); (row + 4, column - 4) ]) (range 2 6)) (range 0 2).

(** The four index lists of the last loop that run below column 0. *)
Definition wrapped_lines : list (list (Z * Z)) :=
  [ [ (0, 2); (1, 1); (2, 0); (3, -1); (4, -2) ];
    [ (0, 3); (1, 2); (2, 1); (3, 0); (4, -1) ];
    [ (1, 2); (2, 1); (3, 0); (4, -1); (5, -2) ];
    [ (1, 3); (2, 2); (3, 1); (4, 0); (5, -1) ] ].

Definition line_eq_dec (x y : list (Z * Z)) : {x = y} + {x <> y}.
Proof.
  apply list_eq_dec. intros [a b] [c d].
  destruct (Z.eq_dec a c) as [->|Hac]; [|right; congruence].
  destruct (Z.eq_dec b d) as [->|Hbd]; [left; reflexivity | right; congruence].
Defined.

(** Every member of [l1] is a member of [l2], as a computation. *)
Definition all_members (l1 l2 : list (list (Z * Z))) : bool :=
  forallb (fun x => if in_dec line_eq_dec x l2 then true else false) l1.

(** The letters and digits [convert_position] decodes. *)
Definition letter_a_to_f (a : ascii) : bool :=
  let n := nat_of_ascii (lower_ascii a) in (97 <=? n)%nat && (n <=? 102)%nat.

Definition decimal_digit (a : ascii) : bool :=
  let n := nat_of_ascii a in (48 <=? n)%nat && (n <=? 57)%nat.

(** ** Concrete positions *)

(** The engine after [make_move('white', 'a1', 1, 'C')] on a new game, as
    the code leaves it. *)
Definition board_after_a1 : board :=
  [ ["."; "W"; "."; "."; "."; "."];
    ["."; "."; "."; "."; "."; "."];
    ["."; "."; "."; "."; "."; "."];
    ["."; "."; "."; "."; "."; "."];
    ["."; "."; "."; "."; "."; "."];
    ["."; "."; "."; "."; "."; "."] ].

Definition game_after_a1 : Pentago.t :=
  Pentago.mk board_after_a1 (Some "W") None (PBool false) [].

(** [board_after_a1] with sub-board 1 rotated clockwise. *)
Definition board_after_a1_rotated : board :=
  [ ["."; "."; "."; "."; "."; "."];
    ["."; "."; "W"; "."; "."; "."];
    ["."; "."; "."; "."; "."; "."];
    ["."; "."; "."; "."; "."; "."];
    ["."; "."; "."; "."; "."; "."];
    ["."; "."; "."; "."; "."; "."] ].

(** An unfinished game with White to move: placing at 'c0' completes no
    line, and turning sub-board 1 clockwise afterwards lays White's column
    into row 'a' and Black's column into row 'b'. *)
Definition board_before_draw : board :=
  [ ["W"; "B"; "."; "W"; "W"; "."];
    ["W"; "B"; "."; "B"; "B"; "."];
    ["."; "B"; "."; "."; "."; "."];
    ["."; "."; "."; "."; "."; "."];
    ["."; "."; "."; "."; "."; "."];
    ["."; "."; "."; "."; "."; "."] ].

Definition game_before_draw : Pentago.t :=
  Pentago.mk board_before_draw (Some "W") (Some "B") (PStr "UNFINISHED") [].

Definition board_draw_placed : board :=
  [ ["W"; "B"; "."; "W"; "W"; "."];
    ["W"; "B"; "."; "B"; "B"; "."];
    ["W"; "B"; "."; "."; "."; "."];
    ["."; "."; "."; "."; "."; "."];
    ["."; "."; "."; "."; "."; "."];
    ["."; "."; "."; "."; "."; "."] ].

Definition board_draw_rotated : board :=
  [ ["W"; "W"; "W"; "W"; "W"; "."];
    ["B"; "B"; "B"; "B"; "B"; "."];
    ["."; "."; "."; "."; "."; "."];
    ["."; "."; "."; "."; "."; "."];
    ["."; "."; "."; "."; "."; "."];
    ["."; "."; "."; "."; "."; "."] ].

(** Five white marbles on (0,3), (1,2), (2,1), (3,0) and (4,5): the first
    four lie on an anti-diagonal that leaves the grid at column 0, the
    fifth lies at the other edge of the next row. *)
Definition board_wrapped : board :=
  [ ["."; "."; "."; "W"; "."; "."];
    ["."; "."; "W"; "."; "."; "."];
    ["."; "W"; "."; "."; "."; "."];
    ["W"; "."; "."; "."; "."; "."];
    ["."; "."; "."; "."; "."; "W"];
    ["."; "."; "."; "."; "."; "."] ].

(** ** Notions for the remaining methods *)

(** The number of cells of a list that hold [color]. *)
Fixpoint count_cells (color : string) (cells : list string) : nat :=
  match cells with
  | [] => 0
  | x :: cells' => (if String.eqb x color then 1 else 0) + count_cells color cells'
  end.

(** The number of cells of the board that hold [color]. *)
Definition count_on_board (color : string) (b : board) : nat :=
  count_cells color (List.concat b).

(** The cell (r, c) lies in the 3x3 window of [sb]. *)
Definition in_window (sb : SubBoard.t) (r c : Z) : Prop :=
  SubBoard._start_row sb <= r < SubBoard._start_row sb + 3 /\
  SubBoard._start_col sb <= c < SubBoard._start_col sb + 3.

(** The nine cells of the window of [sb], read on the board itself, row by
    row. *)
Definition window_values (sb : SubBoard.t) (b : board) : list (outcome string) :=
  map (fun rc => fst (get2 (SubBoard._start_row sb + fst rc)
                           (SubBoard._start_col sb + snd rc) b))
      [ (0, 0); (0, 1); (0, 2); (1, 0); (1, 1); (1, 2); (2, 0); (2, 1); (2, 2) ].

(** A call of one of the two logging methods of [GameLog]. *)
Inductive log_call : Type :=
| Log_move (marble_color : string) (position : Z * Z) (sub_board : Z)
           (rotation : string)
| Log_game_state (game_state : string).

Definition run_log_call (c : log_call) : ST GameLog.t unit :=
  match c with
  | Log_move marble_color position sub_board rotation =>
      GameLog.log_move marble_color position sub_board rotation
  | Log_game_state game_state => GameLog.log_game_state game_state
  end.

(** 1 when [x] is [color], 0 otherwise. *)
Definition is_color (color x : string) : nat :=
  if String.eqb x color then 1%nat else 0%nat.

(** [make_move] cut after the check that follows the placement: lines 90
    to 110 of the method, with the branch of line 108 always taken. *)
Definition make_move_up_to_check (marble_color position : string)
  : ST Pentago.t pyval :=
  (position <- pure (Pentago.convert_position position) ;;
   let marble_color := if String.eqb (upper marble_color) "WHITE" then "W" else "B" in
   Pentago.set_current_player (Some marble_color) ;;
   player <- Pentago.get_current_player ;;
   validation_result <- Pentago.is_valid_move position player ;;
   if negb (is_True validation_result) then ret validation_result else
   Pentago.on_board (GameBoard.update_game_board marble_color position) ;;
   game_state <- Pentago.on_board (GameBoard.check_end_conditions marble_color) ;;
   Pentago.set_game_state game_state ;; ret (PBool true))%st.

(** A computation on the board that, on a board of six rows of six cells,
    returns a value and leaves the board as it was. *)
Definition reads {A : Type} (m : ST board A) : Prop :=
  forall b, board_6x6 b -> exists v, m b = (Ret v, b).

(** ** Boards of six rows of six cells *)

Lemma board_6x6_cells (b : board) :
  board_6x6 b ->
  exists a0 a1 a2 a3 a4 a5 b0 b1 b2 b3 b4 b5 c0 c1 c2 c3 c4 c5
         d0 d1 d2 d3 d4 d5 e0 e1 e2 e3 e4 e5 f0 f1 f2 f3 f4 f5,
    b = [ [a0; a1; a2; a3; a4; a5]; [b0; b1; b2; b3; b4; b5];
          [c0; c1; c2; c3; c4; c5]; [d0; d1; d2; d3; d4; d5];
          [e0; e1; e2; e3; e4; e5]; [f0; f1; f2; f3; f4; f5] ].
Proof.
  intros [Hlen Hrows].
  do 7 (destruct b as [|? b]; try discriminate Hlen).
  repeat match goal with
         | H : Forall _ (_ :: _) |- _ => inversion H; subst; clear H
         end.
  repeat match goal with
         | H : List.length ?row = 6%nat |- _ =>
             do 7 (destruct row as [|? row]; try discriminate H); clear H
         end.
  repeat eexists.
Qed.

Lemma window_in_grid_cases (sb : SubBoard.t) :
  window_in_grid sb ->
  exists r c, sb = SubBoard.mk r c /\ In r [0; 1; 2; 3] /\ In c [0; 1; 2; 3].
Proof.
  destruct sb as [r c]; unfold window_in_grid; simpl; intros [Hr Hc].
  exists r, c; split; [reflexivity|].
  split; simpl; lia.
Qed.

Lemma sub_boards_in_grid (k : Z) (sb : SubBoard.t) :
  In (k, sb) GameBoard._sub_boards -> window_in_grid sb.
Proof.
  unfold GameBoard._sub_boards, window_in_grid; simpl.
  intros [H | [H | [H | [H | []]]]]; inversion H; subst; simpl; lia.
Qed.

(** The two rotations as permutations of nine values. *)
Lemma perm_clockwise {A : Type} (a b c d e f g h i : A) :
  Permutation [g; d; a; h; e; b; i; f; c] [a; b; c; d; e; f; g; h; i].
Proof.
  apply Permutation_sym.
  apply (Permutation_cons_app [g; d] [h; e; b; i; f; c]).
  apply (Permutation_cons_app [g; d; h; e] [i; f; c]).
  apply (Permutation_cons_app [g; d; h; e; i; f] []).
  apply (Permutation_cons_app [g] [h; e; i; f]).
  apply (Permutation_cons_app [g; h] [i; f]).
  apply (Permutation_cons_app [g; h; i] []).
  apply Permutation_refl.
Qed.

Lemma perm_counterclockwise {A : Type} (a b c d e f g h i : A) :
  Permutation [c; f; i; b; e; h; a; d; g] [a; b; c; d; e; f; g; h; i].
Proof.
  apply Permutation_sym.
  apply (Permutation_cons_app [c; f; i; b; e; h] [d; g]).
  apply (Permutation_cons_app [c; f; i] [e; h; d; g]).
  apply (Permutation_cons_app [] [f; i; e; h; d; g]).
  apply (Permutation_cons_app [f; i; e; h] [g]).
  apply (Permutation_cons_app [f; i] [h; g]).
  apply (Permutation_cons_app [] [i; h; g]).
  apply (Permutation_cons_app [i; h] []).
  apply (Permutation_cons_app [i] []).
  apply Permutation_refl.
Qed.

Ltac board_cells b H :=
  destruct (board_6x6_cells b H)
    as (?a & ?a & ?a & ?a & ?a & ?a & ?b & ?b & ?b & ?b & ?b & ?b &
        ?c & ?c & ?c & ?c & ?c & ?c & ?d & ?d & ?d & ?d & ?d & ?d &
        ?e & ?e & ?e & ?e & ?e & ?e & ?f & ?f & ?f & ?f & ?f & ?f & ->).

Ltac window_cases sb H :=
  destruct (window_in_grid_cases sb H) as (?r & ?c & -> & Hr & Hc);
  simpl in Hr, Hc;
  repeat match goal with
         | H : _ \/ _ |- _ => destruct H
         | H : False |- _ => destruct H
         end; subst.

(** ** Rotation *)

(** X9: writing the four sub-boards back into a 6x6 board changes
    nothing: the sub-boards are windows of the board itself. *)
Lemma update_board_from_sub_boards_id (b : board) :
  board_6x6 b -> GameBoard.update_board_from_sub_boards b = (Ret tt, b).
Proof. intros Hb. board_cells b Hb. vm_compute. reflexivity. Qed.

(** X8: on a 6x6 board [GameBoard.rotate_sub_board] with a number 1..4
    and a rotation ['C'] or ['A'] is [SubBoard.rotate] on the sub-board of
    that number; the copy back that follows it adds nothing. *)
Lemma rotate_sub_board_rotate (b : board) (k : Z) (sb : SubBoard.t) (rotation : string) :
  board_6x6 b -> In (k, sb) GameBoard._sub_boards ->
  rotation = "C" \/ rotation = "A" ->
  GameBoard.rotate_sub_board k rotation b = SubBoard.rotate sb rotation b.
Proof.
  intros Hb Hk Hrot. board_cells b Hb.
  unfold GameBoard._sub_boards in Hk. simpl in Hk.
  destruct Hrot as [-> | ->];
    repeat match goal with
           | H : _ \/ _ |- _ => destruct H
           | H : False |- _ => destruct H
           | H : (_, _) = (_, _) |- _ => inversion H; subst; clear H
           end; vm_compute; reflexivity.
Qed.

(** C4: rotating a quadrant clockwise and then counterclockwise restores
    its contents exactly; the whole board is as it was before the two
    rotations.  The same holds for counterclockwise and then clockwise, so
    the two rotations are inverse permutations of the nine cells. *)
Theorem rotate_clockwise_then_counterclockwise
        (b : board) (sb : SubBoard.t) :
  board_6x6 b -> window_in_grid sb ->
  (exists b',
     SubBoard.rotate sb "C" b = (Ret tt, b') /\
     SubBoard.rotate sb "A" b' = (Ret tt, b)) /\
  (exists b',
     SubBoard.rotate sb "A" b = (Ret tt, b') /\
     SubBoard.rotate sb "C" b' = (Ret tt, b)) /\
  fst ((SubBoard.rotate sb "C" ;; SubBoard.rotate sb "A" ;;
        SubBoard.get_sub_board sb) b)
  = fst (SubBoard.get_sub_board sb b).
Proof.
  intros Hb Hsb.
  board_cells b Hb.
  window_cases sb Hsb;
    (split; [eexists; split; vm_compute; reflexivity|];
     split; [eexists; split; vm_compute; reflexivity|];
     vm_compute; reflexivity).
Qed.

Lemma rotate_clockwise_then_counterclockwise_witness :
  board_6x6 board_wrapped /\ window_in_grid (SubBoard.mk 0 3) /\
  (exists b',
     SubBoard.rotate (SubBoard.mk 0 3) "C" board_wrapped = (Ret tt, b') /\
     SubBoard.rotate (SubBoard.mk 0 3) "A" b' = (Ret tt, board_wrapped)) /\
  (exists b',
     SubBoard.rotate (SubBoard.mk 0 3) "A" board_wrapped = (Ret tt, b') /\
     SubBoard.rotate (SubBoard.mk 0 3) "C" b' = (Ret tt, board_wrapped)) /\
  fst ((SubBoard.rotate (SubBoard.mk 0 3) "C" ;;
        SubBoard.rotate (SubBoard.mk 0 3) "A" ;;
        SubBoard.get_sub_board (SubBoard.mk 0 3)) board_wrapped)
  = fst (SubBoard.get_sub_board (SubBoard.mk 0 3) board_wrapped).
Proof.
  assert (Hb : board_6x6 board_wrapped).
  { split; [reflexivity | repeat constructor]. }
  assert (Hw : window_in_grid (SubBoard.mk 0 3)).
  { unfold window_in_grid; simpl; lia. }
  split; [exact Hb | split; [exact Hw |]].
  exact (rotate_clockwise_then_counterclockwise board_wrapped (SubBoard.mk 0 3) Hb Hw).
Defined.

(** C5: a clockwise rotation puts the value of window cell (r, c) at
    window cell (c, 2 - r), and under either rotation direction the nine
    values of the window after the rotation are a permutation of the nine
    values before it.  The cells are those of the board itself: the cell
    (start_row + r, start_col + c) of the board before the rotation and
    the cell (start_row + c, start_col + 2 - r) of the board after it hold
    the same value, and what [get_sub_board] returns before and after is
    those cells. *)
Theorem rotate_moves_cells_and_keeps_multiset
        (b : board) (sb : SubBoard.t) :
  board_6x6 b -> window_in_grid sb ->
  exists old new_c new_a b_c b_a,
    SubBoard.get_sub_board sb b = (Ret old, b) /\
    SubBoard.rotate sb "C" b = (Ret tt, b_c) /\
    SubBoard.get_sub_board sb b_c = (Ret new_c, b_c) /\
    SubBoard.rotate sb "A" b = (Ret tt, b_a) /\
    SubBoard.get_sub_board sb b_a = (Ret new_a, b_a) /\
    (forall r c, 0 <= r <= 2 -> 0 <= c <= 2 ->
       exists v, at2 old r c = Ret v /\ at2 new_c c (2 - r) = Ret v) /\
    Permutation (List.concat new_c) (List.concat old) /\
    Permutation (List.concat new_a) (List.concat old) /\
    (forall r c, 0 <= r <= 2 -> 0 <= c <= 2 ->
       exists v,
         fst (get2 (SubBoard._start_row sb + r) (SubBoard._start_col sb + c) b)
         = Ret v /\
         fst (get2 (SubBoard._start_row sb + c) (SubBoard._start_col sb + (2 - r)) b_c)
         = Ret v) /\
    (forall r c, 0 <= r <= 2 -> 0 <= c <= 2 ->
       at2 old r c
       = fst (get2 (SubBoard._start_row sb + r) (SubBoard._start_col sb + c) b) /\
       at2 new_c r c
       = fst (get2 (SubBoard._start_row sb + r) (SubBoard._start_col sb + c) b_c) /\
       at2 new_a r c
       = fst (get2 (SubBoard._start_row sb + r) (SubBoard._start_col sb + c) b_a)) /\
    Permutation (window_values sb b_c) (window_values sb b) /\
    Permutation (window_values sb b_a) (window_values sb b).
Proof.
  intros Hb Hsb.
  board_cells b Hb.
  window_cases sb Hsb;
    (do 5 eexists;
     split; [vm_compute; reflexivity |];
     split; [vm_compute; reflexivity |];
     split; [vm_compute; reflexivity |];
     split; [vm_compute; reflexivity |];
     split; [vm_compute; reflexivity |];
     split;
     [ intros i j Hi Hj;
       assert (Hi' : i = 0 \/ i = 1 \/ i = 2) by lia;
       assert (Hj' : j = 0 \/ j = 1 \/ j = 2) by lia;
       destruct Hi' as [-> | [-> | ->]]; destruct Hj' as [-> | [-> | ->]];
       eexists; split; vm_compute; reflexivity
     | ];
     split; [apply perm_clockwise |];
     split; [apply perm_counterclockwise |];
     split;
     [ intros i j Hi Hj;
       assert (Hi' : i = 0 \/ i = 1 \/ i = 2) by lia;
       assert (Hj' : j = 0 \/ j = 1 \/ j = 2) by lia;
       destruct Hi' as [-> | [-> | ->]]; destruct Hj' as [-> | [-> | ->]];
       eexists; split; vm_compute; reflexivity
     | ];
     split;
     [ intros i j Hi Hj;
       assert (Hi' : i = 0 \/ i = 1 \/ i = 2) by lia;
       assert (Hj' : j = 0 \/ j = 1 \/ j = 2) by lia;
       destruct Hi' as [-> | [-> | ->]]; destruct Hj' as [-> | [-> | ->]];
       repeat split; vm_compute; reflexivity
     | ];
     split; vm_compute;
     [apply perm_clockwise | apply perm_counterclockwise]).
Qed.

Lemma rotate_moves_cells_and_keeps_multiset_witness :
  board_6x6 board_before_draw /\ window_in_grid (SubBoard.mk 0 0) /\
  exists old new_c new_a b_c b_a,
    SubBoard.get_sub_board (SubBoard.mk 0 0) board_before_draw
    = (Ret old, board_before_draw) /\
    SubBoard.rotate (SubBoard.mk 0 0) "C" board_before_draw = (Ret tt, b_c) /\
    SubBoard.get_sub_board (SubBoard.mk 0 0) b_c = (Ret new_c, b_c) /\
    SubBoard.rotate (SubBoard.mk 0 0) "A" board_before_draw = (Ret tt, b_a) /\
    SubBoard.get_sub_board (SubBoard.mk 0 0) b_a = (Ret new_a, b_a) /\
    (forall r c, 0 <= r <= 2 -> 0 <= c <= 2 ->
       exists v, at2 old r c = Ret v /\ at2 new_c c (2 - r) = Ret v) /\
    Permutation (List.concat new_c) (List.concat old) /\
    Permutation (List.concat new_a) (List.concat old) /\
    (forall r c, 0 <= r <= 2 -> 0 <= c <= 2 ->
       exists v,
         fst (get2 (0 + r) (0 + c) board_before_draw) = Ret v /\
         fst (get2 (0 + c) (0 + (2 - r)) b_c) = Ret v) /\
    (forall r c, 0 <= r <= 2 -> 0 <= c <= 2 ->
       at2 old r c = fst (get2 (0 + r) (0 + c) board_before_draw) /\
       at2 new_c r c = fst (get2 (0 + r) (0 + c) b_c) /\
       at2 new_a r c = fst (get2 (0 + r) (0 + c) b_a)) /\
    Permutation (window_values (SubBoard.mk 0 0) b_c)
                (window_values (SubBoard.mk 0 0) board_before_draw) /\
    Permutation (window_values (SubBoard.mk 0 0) b_a)
                (window_values (SubBoard.mk 0 0) board_before_draw).
Proof.
  assert (Hb : board_6x6 board_before_draw).
  { split; [reflexivity | repeat constructor]. }
  assert (Hw : window_in_grid (SubBoard.mk 0 0)).
  { unfold window_in_grid; simpl; lia. }
  split; [exact Hb | split; [exact Hw |]].
  exact (rotate_moves_cells_and_keeps_multiset board_before_draw (SubBoard.mk 0 0) Hb Hw).
Defined.

(** ** Indexing lemmas *)

Lemma getitem_Ret {A : Type} (l : list A) (i : Z) (x : A) :
  getitem l i = Ret x ->
  exists k, py_index (List.length l) i = Some k /\ nth_error l k = Some x.
Proof.
  unfold getitem.
  destruct (py_index (List.length l) i) as [k|]; [|discriminate].
  destruct (nth_error l k) as [y|] eqn:Hk; [|discriminate].
  intros H; inversion H; subst. exists k. split; [reflexivity | exact Hk].
Qed.

Lemma replace_nth_length {A : Type} (k : nat) (x : A) (l : list A) :
  List.length (replace_nth k x l) = List.length l.
Proof.
  revert k; induction l as [|y l IH]; intros [|k]; simpl; try reflexivity.
  now rewrite IH.
Qed.

Lemma replace_nth_same {A : Type} (k : nat) (x y : A) (l : list A) :
  nth_error l k = Some y -> nth_error (replace_nth k x l) k = Some x.
Proof.
  revert k; induction l as [|z l IH]; intros [|k]; simpl; try discriminate.
  - reflexivity.
  - apply IH.
Qed.

Lemma replace_nth_Forall {A : Type} (P : A -> Prop) (k : nat) (x : A) (l : list A) :
  Forall P l -> P x -> Forall P (replace_nth k x l).
Proof.
  intros Hl Hx; revert k; induction Hl as [|y l Hy Hl IH]; intros [|k]; simpl;
    constructor; auto.
Qed.

(** A cell that can be read can be written; the write keeps the shape of
    the board and is what a later read of the same cell returns. *)
Lemma set2_after_get2 (r c : Z) (x v : string) (b b0 : board) :
  get2 r c b = (Ret x, b0) ->
  exists b',
    set2 r c v b = (Ret tt, b') /\
    get2 r c b' = (Ret v, b') /\
    (board_6x6 b -> board_6x6 b').
Proof.
  unfold get2, set2.
  destruct (getitem b r) as [row|e] eqn:Hrow; [|discriminate].
  destruct (getitem row c) as [y|e] eqn:Hcell; [|discriminate].
  intros _.
  destruct (getitem_Ret _ _ _ Hrow) as (k & Hk & Hnth).
  destruct (getitem_Ret _ _ _ Hcell) as (j & Hj & Hnthj).
  unfold setitem. rewrite Hj, Hk.
  eexists. split; [reflexivity|]. split.
  - unfold getitem. rewrite replace_nth_length, Hk.
    rewrite (replace_nth_same _ _ _ _ Hnth).
    rewrite replace_nth_length, Hj.
    now rewrite (replace_nth_same _ _ _ _ Hnthj).
  - intros [Hlen Hrows]. split.
    + now rewrite replace_nth_length.
    + apply replace_nth_Forall; [exact Hrows|].
      rewrite replace_nth_length.
      rewrite Forall_forall in Hrows. apply Hrows.
      eapply nth_error_In; eassumption.
Qed.

(** ** Read-only computations on a 6x6 board *)

Lemma reads_ret {A : Type} (a : A) : reads (ret a).
Proof. intros b _. exists a. reflexivity. Qed.

Lemma reads_bind {A B : Type} (m : ST board A) (k : A -> ST board B) :
  reads m -> (forall a, reads (k a)) -> reads (bind m k).
Proof.
  intros Hm Hk b Hb. unfold bind.
  destruct (Hm b Hb) as [a ->]. apply Hk, Hb.
Qed.

Lemma reads_if {A : Type} (c : bool) (m1 m2 : ST board A) :
  reads m1 -> reads m2 -> reads (if c then m1 else m2).
Proof. destruct c; auto. Qed.

Lemma reads_any {A : Type} (l : list A) (cond : A -> ST board bool) :
  (forall x, In x l -> reads (cond x)) -> reads (any_ l cond).
Proof.
  induction l as [|x l IH]; intros H; simpl.
  - apply reads_ret.
  - apply reads_bind; [apply H; left; reflexivity|].
    intros found. apply reads_if; [apply reads_ret|].
    apply IH. intros y Hy. apply H. right. exact Hy.
Qed.

Lemma reads_and (cs : list (ST board bool)) :
  Forall reads cs -> reads (and_ cs).
Proof.
  induction 1 as [|c cs Hc Hcs IH]; simpl.
  - apply reads_ret.
  - apply reads_bind; [exact Hc|].
    intros ok. apply reads_if; [exact IH | apply reads_ret].
Qed.

Lemma reads_get2 (r c : Z) :
  -6 <= r < 6 -> -6 <= c < 6 -> reads (get2 r c).
Proof.
  intros Hr Hc b Hb.
  board_cells b Hb.
  assert (Hr' : In r [-6; -5; -4; -3; -2; -1; 0; 1; 2; 3; 4; 5]) by (simpl; lia).
  assert (Hc' : In c [-6; -5; -4; -3; -2; -1; 0; 1; 2; 3; 4; 5]) by (simpl; lia).
  simpl in Hr', Hc'.
  repeat match goal with
         | H : _ \/ _ |- _ => destruct H
         | H : False |- _ => destruct H
         end; subst; eexists; vm_compute; reflexivity.
Qed.

Lemma reads_all_color (color : string) (cells : list (Z * Z)) :
  Forall (fun rc => -6 <= fst rc < 6 /\ -6 <= snd rc < 6) cells ->
  reads (GameBoard.all_color color cells).
Proof.
  intros H. unfold GameBoard.all_color. apply reads_and.
  induction H as [|rc cells [Hr Hc] _ IH]; simpl; constructor; [|exact IH].
  apply reads_bind; [apply reads_get2; assumption|].
  intros v. apply reads_ret.
Qed.

Ltac in_range H :=
  vm_compute in H;
  repeat match type of H with
         | _ \/ _ => destruct H as [H | H]
         end; try contradiction; subst.

Ltac reads_scan :=
  apply reads_any; intros i Hi; apply reads_any; intros j Hj;
  in_range Hi; in_range Hj; apply reads_all_color;
  repeat constructor; simpl; lia.

Lemma reads_check_five_in_a_row (color : string) :
  reads (GameBoard.check_five_in_a_row color).
Proof.
  unfold GameBoard.check_five_in_a_row.
  apply reads_bind; [reads_scan|].
  intros in_rows; apply reads_if; [apply reads_ret|].
  apply reads_bind; [reads_scan|].
  intros in_columns; apply reads_if; [apply reads_ret|].
  apply reads_bind; [reads_scan|].
  intros in_diagonals; apply reads_if; [apply reads_ret|].
  apply reads_bind; [reads_scan|].
  intros in_antidiagonals; apply reads_if; apply reads_ret.
Qed.

Lemma check_end_conditions_6x6 (color : string) (b : board) :
  board_6x6 b ->
  exists won, GameBoard.check_end_conditions color b = (Ret (PBool won), b).
Proof.
  intros Hb. unfold GameBoard.check_end_conditions, bind.
  destruct (reads_check_five_in_a_row color b Hb) as [won ->].
  exists won. destruct won; reflexivity.
Qed.

(** ** The move pipeline *)

Lemma outcome_true_dec (o : outcome pyval) :
  {o = Ret (PBool true)} + {o <> Ret (PBool true)}.
Proof.
  destruct o as [[s|[|]]|e];
    first [left; reflexivity | right; intros H; discriminate H].
Qed.

Lemma py_ne_UNFINISHED (x : pyval) :
  py_ne x (PStr "UNFINISHED") = true <-> x <> PStr "UNFINISHED".
Proof.
  unfold py_ne. destruct x as [s|w]; simpl.
  - destruct (String.eqb_spec s "UNFINISHED") as [->|Hne]; simpl; split;
      congruence.
  - split; congruence.
Qed.

(** An undecodable position raises before any attribute is touched. *)
Lemma make_move_undecodable (marble_color position : string) (sub_board : Z)
      (rotation : string) (self : Pentago.t) (e : exn) :
  Pentago.convert_position position = Raise e ->
  Pentago.make_move marble_color position sub_board rotation self = (Raise e, self).
Proof.
  intros H. unfold Pentago.make_move, bind, pure. rewrite H. reflexivity.
Qed.

(** A decodable position on a finished game: the current player is
    overwritten, then validation answers. *)
Lemma make_move_finished (marble_color position : string) (sub_board : Z)
      (rotation : string) (self : Pentago.t) (p : Z * Z) :
  Pentago.convert_position position = Ret p ->
  Pentago._game_state self <> PStr "UNFINISHED" ->
  Pentago.make_move marble_color position sub_board rotation self =
  (Ret (PStr "game is finished"), with_current_player (marble_of marble_color) self).
Proof.
  intros Hp Hstate. apply py_ne_UNFINISHED in Hstate.
  unfold Pentago.make_move, bind, pure. rewrite Hp.
  unfold Pentago.is_valid_move, bind. cbn.
  rewrite Hstate. reflexivity.
Qed.

(** What a passed validation says about the state it ran on. *)
Lemma is_valid_move_True (p : Z * Z) (player : option string) (self : Pentago.t) :
  fst (Pentago.is_valid_move p player self) = Ret (PBool true) ->
  Pentago._game_state self = PStr "UNFINISHED" /\
  opt_str_eq player (Pentago._opponent self) = false /\
  get2 (fst p) (snd p) (Pentago._board self) = (Ret ".", Pentago._board self) /\
  Pentago.is_valid_move p player self = (Ret (PBool true), self).
Proof.
  destruct p as [row column]. destruct self as [b cur opp st log].
  unfold Pentago.is_valid_move, bind. cbn.
  destruct (py_ne st (PStr "UNFINISHED")) eqn:Hst; cbn; [intros H; discriminate H|].
  destruct (opt_str_eq player opp) eqn:Hopp; cbn; [intros H; discriminate H|].
  unfold get2, Pentago.on_board. cbn.
  destruct (getitem b row) as [cells|e]; cbn; [|intros H; discriminate H].
  destruct (getitem cells column) as [cell|e]; cbn; [|intros H; discriminate H].
  destruct (String.eqb_spec cell ".") as [->|Hne]; cbn; [|intros H; discriminate H].
  intros _. repeat split.
  destruct st as [s|w]; [|discriminate Hst].
  unfold py_ne in Hst; simpl in Hst.
  destruct (String.eqb_spec s "UNFINISHED") as [->|]; [reflexivity|discriminate].
Qed.

(** A move that passes validation on a 6x6 board places the marble, stores
    the boolean of the end-condition check as the game state and returns
    [True]; nothing after the pre-rotation check runs. *)
Lemma make_move_placed (marble_color position : string) (sub_board : Z)
      (rotation : string) (self : Pentago.t) (p : Z * Z) :
  board_6x6 (Pentago._board self) ->
  Pentago.convert_position position = Ret p ->
  fst (Pentago.is_valid_move p (Some (marble_of marble_color))
         (with_current_player (marble_of marble_color) self)) = Ret (PBool true) ->
  exists b won,
    GameBoard.update_game_board (marble_of marble_color) p (Pentago._board self)
    = (Ret tt, b) /\
    GameBoard.check_end_conditions (marble_of marble_color) b = (Ret (PBool won), b) /\
    board_6x6 b /\
    get2 (fst p) (snd p) b = (Ret (marble_of marble_color), b) /\
    Pentago.make_move marble_color position sub_board rotation self =
    (Ret (PBool true),
     Pentago.mk b (Some (marble_of marble_color)) (Pentago._opponent self)
                (PBool won) (Pentago._game_log self)).
Proof.
  intros Hb Hp Hvalid.
  destruct (is_valid_move_True _ _ _ Hvalid) as (Hst & Hopp & Hcell & Hrun).
  destruct (set2_after_get2 _ _ _ (marble_of marble_color) _ _ Hcell)
    as (b & Hset & Hget & Hshape).
  destruct (check_end_conditions_6x6 (marble_of marble_color) b (Hshape Hb))
    as [won Hwon].
  exists b, won.
  assert (Hupd : GameBoard.update_game_board (marble_of marble_color) p
                   (Pentago._board self) = (Ret tt, b)).
  { destruct p as [row column]. exact Hset. }
  repeat split; try assumption; [exact (proj1 (Hshape Hb)) | exact (proj2 (Hshape Hb)) |].
  unfold Pentago.make_move, bind at 1, pure. rewrite Hp.
  unfold bind at 1. unfold Pentago.set_current_player at 1.
  unfold bind at 1. unfold Pentago.get_current_player at 1.
  fold (marble_of marble_color).
  change (Pentago.mk (Pentago._board self) (Some (marble_of marble_color))
            (Pentago._opponent self) (Pentago._game_state self)
            (Pentago._game_log self))
    with (with_current_player (marble_of marble_color) self).
  cbn [Pentago._current_player with_current_player].
  unfold bind at 1.
  change (Pentago.mk (Pentago._board self) (Some (marble_of marble_color))
            (Pentago._opponent self) (Pentago._game_state self)
            (Pentago._game_log self))
    with (with_current_player (marble_of marble_color) self).
  rewrite Hrun. cbn [is_True negb].
  unfold bind at 1. unfold Pentago.on_board at 1.
  cbn [Pentago._board with_current_player]. rewrite Hupd.
  unfold bind at 1. unfold Pentago.on_board at 1.
  cbn [Pentago._board]. rewrite Hwon.
  reflexivity.
Qed.

(** Validation only reads the engine. *)
Lemma is_valid_move_keeps_state (p : Z * Z) (player : option string) (self : Pentago.t) :
  snd (Pentago.is_valid_move p player self) = self.
Proof.
  destruct p as [row column]. destruct self as [b cur opp st log].
  unfold Pentago.is_valid_move, bind. cbn.
  destruct (py_ne st (PStr "UNFINISHED")); cbn; [reflexivity|].
  destruct (opt_str_eq player opp); cbn; [reflexivity|].
  unfold get2, Pentago.on_board. cbn.
  destruct (getitem b row) as [cells|e]; cbn; [|reflexivity].
  destruct (getitem cells column) as [cell|e]; cbn; [|reflexivity].
  destruct (negb (String.eqb cell ".")); reflexivity.
Qed.

(** A move that does not pass validation ends with the answer of the
    validation; only the current player has been overwritten. *)
Lemma make_move_rejected (marble_color position : string) (sub_board : Z)
      (rotation : string) (self : Pentago.t) (p : Z * Z) :
  Pentago.convert_position position = Ret p ->
  fst (Pentago.is_valid_move p (Some (marble_of marble_color))
         (with_current_player (marble_of marble_color) self)) <> Ret (PBool true) ->
  Pentago.make_move marble_color position sub_board rotation self =
  (fst (Pentago.is_valid_move p (Some (marble_of marble_color))
          (with_current_player (marble_of marble_color) self)),
   with_current_player (marble_of marble_color) self).
Proof.
  intros Hp Hno.
  pose proof (is_valid_move_keeps_state p (Some (marble_of marble_color))
                (with_current_player (marble_of marble_color) self)) as Hkeep.
  unfold Pentago.make_move, bind at 1, pure. rewrite Hp.
  unfold bind at 1. unfold Pentago.set_current_player at 1.
  unfold bind at 1. unfold Pentago.get_current_player at 1.
  fold (marble_of marble_color).
  change (Pentago.mk (Pentago._board self) (Some (marble_of marble_color))
            (Pentago._opponent self) (Pentago._game_state self)
            (Pentago._game_log self))
    with (with_current_player (marble_of marble_color) self).
  cbn [Pentago._current_player with_current_player].
  unfold bind at 1.
  change (Pentago.mk (Pentago._board self) (Some (marble_of marble_color))
            (Pentago._opponent self) (Pentago._game_state self)
            (Pentago._game_log self))
    with (with_current_player (marble_of marble_color) self).
  destruct (Pentago.is_valid_move p (Some (marble_of marble_color))
              (with_current_player (marble_of marble_color) self)) as [o s'].
  simpl in Hkeep, Hno |- *. subst s'.
  destruct o as [[s|[|]]|e]; try reflexivity.
  now elim Hno.
Qed.

(** Every call keeps the board 6x6; a call that returns [True] leaves a
    boolean game state behind, any other call leaves board and game state
    as they were. *)
Lemma run_call_cases (c : call) (self : Pentago.t) :
  board_6x6 (Pentago._board self) ->
  board_6x6 (Pentago._board (snd (run_call c self))) /\
  (fst (run_call c self) = Ret (PBool true) ->
   exists won, Pentago._game_state (snd (run_call c self)) = PBool won) /\
  (fst (run_call c self) <> Ret (PBool true) ->
   Pentago._game_state (snd (run_call c self)) = Pentago._game_state self).
Proof.
  intros Hb. destruct c as [[[marble_color position] sub_board] rotation].
  unfold run_call.
  destruct (Pentago.convert_position position) as [p|e] eqn:Hp.
  - destruct (outcome_true_dec
                (fst (Pentago.is_valid_move p (Some (marble_of marble_color))
                        (with_current_player (marble_of marble_color) self))))
      as [Hyes|Hno].
    + destruct (make_move_placed marble_color position sub_board rotation self p
                  Hb Hp Hyes) as (b & won & _ & _ & Hb' & _ & ->).
      simpl. split; [exact Hb'|]. split; [eauto|]. intros H; now elim H.
    + rewrite (make_move_rejected _ _ sub_board rotation _ _ Hp Hno). simpl.
      split; [exact Hb|]. split; [intros H; now elim Hno | reflexivity].
  - rewrite (make_move_undecodable _ _ sub_board rotation _ _ Hp). simpl.
    split; [exact Hb|]. split; [intros H; discriminate H | reflexivity].
Qed.

(** ** Games *)

Lemma play_app (l1 l2 : list call) (self : Pentago.t) :
  play (l1 ++ l2) self =
  (fst (play l1 self) ++ fst (play l2 (snd (play l1 self))),
   snd (play l2 (snd (play l1 self)))).
Proof.
  revert self; induction l1 as [|c l1 IH]; intros self; simpl.
  - now destruct (play l2 self).
  - destruct (run_call c self) as [o self'].
    rewrite IH. destruct (play l1 self') as [os s1]. reflexivity.
Qed.

Lemma play_cons (c : call) (calls : list call) (self : Pentago.t) :
  play (c :: calls) self =
  (fst (run_call c self) :: fst (play calls (snd (run_call c self))),
   snd (play calls (snd (run_call c self)))).
Proof.
  simpl. destruct (run_call c self) as [o self']. simpl.
  now destruct (play calls self').
Qed.

Lemma play_6x6 (calls : list call) (self : Pentago.t) :
  board_6x6 (Pentago._board self) ->
  board_6x6 (Pentago._board (snd (play calls self))).
Proof.
  revert self; induction calls as [|c calls IH]; intros self Hb.
  - exact Hb.
  - rewrite play_cons; simpl. apply IH. now apply run_call_cases.
Qed.

Lemma finished_answer_not_True (c : call) : finished_answer c <> Ret (PBool true).
Proof.
  unfold finished_answer.
  destruct (Pentago.convert_position (call_position c)); intros H; discriminate H.
Qed.

(** On a finished game a call answers [finished_answer] and the game stays
    finished. *)
Lemma run_call_finished (c : call) (self : Pentago.t) :
  Pentago._game_state self <> PStr "UNFINISHED" ->
  fst (run_call c self) = finished_answer c /\
  Pentago._game_state (snd (run_call c self)) = Pentago._game_state self.
Proof.
  intros Hst. destruct c as [[[marble_color position] sub_board] rotation].
  unfold run_call, finished_answer, call_position; simpl.
  destruct (Pentago.convert_position position) as [p|e] eqn:Hp.
  - rewrite (make_move_finished _ _ sub_board rotation _ _ Hp Hst). split; reflexivity.
  - rewrite (make_move_undecodable _ _ sub_board rotation _ _ Hp). split; reflexivity.
Qed.

Lemma play_finished (calls : list call) (self : Pentago.t) :
  Pentago._game_state self <> PStr "UNFINISHED" ->
  fst (play calls self) = map finished_answer calls /\
  Pentago._game_state (snd (play calls self)) = Pentago._game_state self.
Proof.
  revert self; induction calls as [|c calls IH]; intros self Hst.
  - split; reflexivity.
  - rewrite play_cons; simpl.
    destruct (run_call_finished c self Hst) as [Ho Hs].
    destruct (IH (snd (run_call c self))) as [IHo IHs].
    + now rewrite Hs.
    + rewrite Ho, IHo, IHs, Hs. split; reflexivity.
Qed.

(** A game that is still unfinished has seen no successful call. *)
Lemma play_unfinished_no_success (calls : list call) (self : Pentago.t) :
  board_6x6 (Pentago._board self) ->
  Pentago._game_state (snd (play calls self)) = PStr "UNFINISHED" ->
  ~ In (Ret (PBool true)) (fst (play calls self)).
Proof.
  revert self; induction calls as [|c calls IH]; intros self Hb Hend.
  - simpl. tauto.
  - rewrite play_cons in Hend |- *; simpl in Hend |- *.
    destruct (run_call_cases c self Hb) as (Hb' & Hyes & Hno).
    destruct (outcome_true_dec (fst (run_call c self))) as [Htrue|Hfalse].
    + destruct (Hyes Htrue) as [won Hwon].
      destruct (play_finished calls (snd (run_call c self))) as [_ Hkeep].
      * rewrite Hwon. intros H; discriminate H.
      * rewrite Hkeep, Hwon in Hend. discriminate Hend.
    + intros [Hhere | Hlater]; [now elim Hfalse|].
      exact (IH _ Hb' Hend Hlater).
Qed.

Lemma init_6x6 : board_6x6 (Pentago._board Pentago.init).
Proof. split; [reflexivity | repeat constructor]. Qed.

(** C9, in the form that holds of the code: in a game, a call that
    passes validation places its marble, returns [True] and stores as game
    state the boolean that [check_end_conditions] returned, so the state
    never equals ['UNFINISHED'] again; the board is the one the placement
    left, without any rotation.  No earlier call of the game returned [True], and every
    later call returns ['game is finished'] when its position decodes and
    raises the decoding exception otherwise, so at most one call of a game
    succeeds. *)
Theorem one_successful_move_per_game
        (before after : list call) (c : call) (p : Z * Z) :
  Pentago.convert_position (call_position c) = Ret p ->
  fst (Pentago.is_valid_move p (Some (marble_of (call_color c)))
         (with_current_player (marble_of (call_color c)) (game_after before)))
  = Ret (PBool true) ->
  exists b won,
    GameBoard.update_game_board (marble_of (call_color c)) p
      (Pentago._board (game_after before)) = (Ret tt, b) /\
    GameBoard.check_end_conditions (marble_of (call_color c)) b
    = (Ret (PBool won), b) /\
    run_call c (game_after before) =
    (Ret (PBool true),
     Pentago.mk b (Some (marble_of (call_color c)))
                (Pentago._opponent (game_after before)) (PBool won)
                (Pentago._game_log (game_after before))) /\
    fst (play (before ++ c :: after) Pentago.init) =
    fst (play before Pentago.init) ++ Ret (PBool true) :: map finished_answer after /\
    ~ In (Ret (PBool true)) (fst (play before Pentago.init)) /\
    ~ In (Ret (PBool true)) (map finished_answer after) /\
    Pentago._game_state (game_after (before ++ c :: after)) = PBool won /\
    PBool won <> PStr "UNFINISHED".
Proof.
  intros Hp Hvalid.
  assert (Hb : board_6x6 (Pentago._board (game_after before)))
    by (apply play_6x6, init_6x6).
  destruct c as [[[marble_color position] sub_board] rotation].
  unfold call_color, call_position in *; simpl in Hp, Hvalid |- *.
  set (self := game_after before) in *.
  destruct (make_move_placed marble_color position sub_board rotation self p
              Hb Hp Hvalid) as (b & won & Hupd & Hwon & _ & _ & Hrun).
  destruct (is_valid_move_True _ _ _ Hvalid) as (Hst & _).
  exists b, won.
  assert (Hlater :
    fst (play after (Pentago.mk b (Some (marble_of marble_color))
                                (Pentago._opponent self) (PBool won)
                                (Pentago._game_log self)))
    = map finished_answer after /\
    Pentago._game_state
      (snd (play after (Pentago.mk b (Some (marble_of marble_color))
                                   (Pentago._opponent self) (PBool won)
                                   (Pentago._game_log self))))
    = PBool won).
  { apply play_finished. simpl. intros H; discriminate H. }
  destruct Hlater as [Houts Hstate].
  split; [exact Hupd|]. split; [exact Hwon|].
  assert (Hcall : run_call (marble_color, position, sub_board, rotation) self
                  = (Ret (PBool true),
                     Pentago.mk b (Some (marble_of marble_color))
                                (Pentago._opponent self) (PBool won)
                                (Pentago._game_log self))) by exact Hrun.
  split; [exact Hcall|].
  unfold game_after at 1. rewrite play_app, play_cons.
  fold (game_after before). fold self. rewrite Hcall.
  cbn [fst snd]. rewrite Houts, Hstate.
  split; [reflexivity|].
  split; [apply play_unfinished_no_success; [apply init_6x6 | exact Hst]|].
  split.
  - rewrite in_map_iff. intros (c' & Hc' & _).
    exact (finished_answer_not_True c' Hc').
  - split; [reflexivity | intros H; discriminate H].
Qed.

Lemma one_successful_move_per_game_witness :
  Pentago.convert_position "a1" = Ret (0, 1) /\
  fst (Pentago.is_valid_move (0, 1) (Some "W")
         (with_current_player "W" Pentago.init)) = Ret (PBool true) /\
  fst (play [ ("white", "a1", 1, "C"); ("black", "a1", 1, "C");
              ("white", "zz", 1, "C") ] Pentago.init)
  = [ Ret (PBool true); Ret (PStr "game is finished"); Raise KeyError ].
Proof.
  split; [reflexivity | split; [reflexivity|]].
  destruct (one_successful_move_per_game
              [] [ ("black", "a1", 1, "C"); ("white", "zz", 1, "C") ]
              ("white", "a1", 1, "C") (0, 1) eq_refl eq_refl)
    as (b & won & _ & _ & _ & Houts & _).
  exact Houts.
Defined.

(** C9, as it is written, fails on a later call whose position does not
    decode: that call raises [KeyError] instead of returning
    ['game is finished']. *)
Lemma later_call_with_bad_position_raises :
  fst (play [ ("white", "a1", 1, "C"); ("black", "z0", 1, "C") ] Pentago.init)
  = [ Ret (PBool true); Raise KeyError ] /\
  Raise KeyError <> Ret (PStr "game is finished").
Proof.
  split; [vm_compute; reflexivity | intros H; discriminate H].
Qed.

(** ** Moves on a finished game *)

(** C2, in the form that holds of the code: once the game state is not
    ['UNFINISHED'], a call whose position decodes returns
    ['game is finished'] and leaves board, opponent, game state and log as
    they were, while the current player is overwritten with the caller's
    marble; a call whose position does not decode raises the decoding
    exception and leaves the whole engine as it was. *)
Theorem finished_game_rejects_moves
        (marble_color position : string) (sub_board : Z) (rotation : string)
        (self : Pentago.t) :
  Pentago._game_state self <> PStr "UNFINISHED" ->
  exists self',
    Pentago.make_move marble_color position sub_board rotation self
    = (finished_answer (marble_color, position, sub_board, rotation), self') /\
    Pentago._board self' = Pentago._board self /\
    Pentago._opponent self' = Pentago._opponent self /\
    Pentago._game_state self' = Pentago._game_state self /\
    Pentago._game_log self' = Pentago._game_log self /\
    match Pentago.convert_position position with
    | Ret _ => Pentago._current_player self' = Some (marble_of marble_color)
    | Raise _ => self' = self
    end.
Proof.
  intros Hst. unfold finished_answer, call_position; simpl.
  destruct (Pentago.convert_position position) as [p|e] eqn:Hp.
  - exists (with_current_player (marble_of marble_color) self).
    rewrite (make_move_finished _ _ sub_board rotation _ _ Hp Hst).
    repeat split.
  - exists self.
    rewrite (make_move_undecodable _ _ sub_board rotation _ _ Hp).
    repeat split.
Qed.

Lemma finished_game_rejects_moves_witness :
  Pentago._game_state game_after_a1 <> PStr "UNFINISHED" /\
  exists self',
    Pentago.make_move "black" "b0" 1 "C" game_after_a1
    = (finished_answer ("black", "b0", 1, "C"), self') /\
    Pentago._board self' = Pentago._board game_after_a1 /\
    Pentago._opponent self' = Pentago._opponent game_after_a1 /\
    Pentago._game_state self' = Pentago._game_state game_after_a1 /\
    Pentago._game_log self' = Pentago._game_log game_after_a1 /\
    match Pentago.convert_position "b0" with
    | Ret _ => Pentago._current_player self' = Some (marble_of "black")
    | Raise _ => self' = game_after_a1
    end.
Proof.
  assert (Hst : Pentago._game_state game_after_a1 <> PStr "UNFINISHED").
  { simpl. intros H; discriminate H. }
  split; [exact Hst|].
  exact (finished_game_rejects_moves "black" "b0" 1 "C" game_after_a1 Hst).
Defined.

(** C2, as it is written, fails: after White's first move the game state
    is [False], and Black's next call, rejected with ['game is finished'],
    has replaced the current player ['W'] by ['B']. *)
Lemma finished_game_changes_current_player :
  Pentago.make_move "white" "a1" 1 "C" Pentago.init = (Ret (PBool true), game_after_a1) /\
  Pentago._game_state game_after_a1 <> PStr "UNFINISHED" /\
  Pentago.make_move "black" "b0" 1 "C" game_after_a1
  = (Ret (PStr "game is finished"),
     Pentago.mk board_after_a1 (Some "B") None (PBool false) []) /\
  Pentago.mk board_after_a1 (Some "B") None (PBool false) [] <> game_after_a1.
Proof.
  split; [vm_compute; reflexivity|].
  split; [simpl; intros H; discriminate H|].
  split; [vm_compute; reflexivity|].
  unfold game_after_a1. intros H; discriminate H.
Qed.

(** ** Position decoding *)

Lemma getitem_0 {A : Type} (x : A) (l : list A) : getitem (x :: l) 0 = Ret x.
Proof.
  unfold getitem, py_index.
  replace (0 <? Z.of_nat (List.length (x :: l))) with true
    by (symmetry; apply Z.ltb_lt; simpl List.length; lia).
  reflexivity.
Qed.

Lemma getitem_1 {A : Type} (x y : A) (l : list A) : getitem (x :: y :: l) 1 = Ret y.
Proof.
  unfold getitem, py_index.
  replace (1 <? Z.of_nat (List.length (x :: y :: l))) with true
    by (symmetry; apply Z.ltb_lt; simpl List.length; lia).
  reflexivity.
Qed.

Lemma letter_lookup (l : ascii) :
  dict_getitem String.eqb Pentago.letter_conversion (lower (String l "")) =
  if letter_a_to_f l
  then Ret (Z.of_nat (nat_of_ascii (lower_ascii l) - 97))
  else Raise KeyError.
Proof.
  destruct l as [[] [] [] [] [] [] [] []]; vm_compute; reflexivity.
Qed.

Lemma digit_value (d : ascii) :
  int_ (String d "") =
  if decimal_digit d then Ret (Z.of_nat (nat_of_ascii d - 48)) else Raise ValueError.
Proof. reflexivity. Qed.

Lemma letter_a_to_f_bounds (l : ascii) :
  letter_a_to_f l = true -> 0 <= Z.of_nat (nat_of_ascii (lower_ascii l) - 97) <= 5.
Proof.
  unfold letter_a_to_f. intros H.
  apply andb_true_iff in H. destruct H as [H1 H2].
  apply Nat.leb_le in H1, H2. lia.
Qed.

Lemma decimal_digit_bounds (d : ascii) :
  decimal_digit d = true -> 0 <= Z.of_nat (nat_of_ascii d - 48) <= 9.
Proof.
  unfold decimal_digit. intros H.
  apply andb_true_iff in H. destruct H as [H1 H2].
  apply Nat.leb_le in H1, H2. lia.
Qed.

(** C6, in the form that holds of the code: position decoding signals a
    bad position by raising, never by a returned error value.  A string
    shorter than two characters raises [IndexError] (or [KeyError] when
    its only character is no letter 'a'..'f'), a first character that is,
    in either case, no letter 'a'..'f' raises [KeyError], a second
    character that is no decimal digit raises [ValueError]; [make_move]
    passes each of these on to its caller with the engine untouched.  The
    decoding checks no range: every decimal digit is decoded, also 6..9. *)
Theorem convert_position_raises_or_decodes (position : string) :
  match position with
  | EmptyString => Pentago.convert_position position = Raise IndexError
  | String l EmptyString =>
      Pentago.convert_position position =
      Raise (if letter_a_to_f l then IndexError else KeyError)
  | String l (String d _) =>
      if letter_a_to_f l then
        if decimal_digit d then
          exists row column,
            Pentago.convert_position position = Ret (row, column) /\
            row = Z.of_nat (nat_of_ascii (lower_ascii l) - 97) /\
            column = Z.of_nat (nat_of_ascii d - 48) /\
            0 <= row <= 5 /\ 0 <= column <= 9
        else Pentago.convert_position position = Raise ValueError
      else Pentago.convert_position position = Raise KeyError
  end /\
  forall e marble_color sub_board rotation self,
    Pentago.convert_position position = Raise e ->
    Pentago.make_move marble_color position sub_board rotation self = (Raise e, self).
Proof.
  split.
  - destruct position as [|l [|d rest]].
    + reflexivity.
    + unfold Pentago.convert_position, str_getitem. simpl list_ascii_of_string.
      rewrite getitem_0, letter_lookup.
      destruct (letter_a_to_f l); reflexivity.
    + unfold Pentago.convert_position, str_getitem. simpl list_ascii_of_string.
      rewrite getitem_0, letter_lookup.
      destruct (letter_a_to_f l) eqn:Hl; [|reflexivity].
      rewrite getitem_1, digit_value.
      destruct (decimal_digit d) eqn:Hd; [|reflexivity].
      do 2 eexists. split; [reflexivity|].
      split; [reflexivity|]. split; [reflexivity|].
      split; [apply letter_a_to_f_bounds, Hl | apply decimal_digit_bounds, Hd].
  - intros e marble_color sub_board rotation self He.
    now apply make_move_undecodable.
Qed.

(** C6, as it is written, fails: a digit outside 0..5 is decoded without
    any failure, a letter outside 'a'..'f' raises [KeyError] instead of
    giving an error result, and [make_move] lets the exception escape. *)
Lemma bad_positions_decode_or_raise :
  Pentago.convert_position "a7" = Ret (0, 7) /\
  Pentago.convert_position "z0" = Raise KeyError /\
  Pentago.make_move "white" "z0" 1 "C" Pentago.init = (Raise KeyError, Pentago.init) /\
  Pentago.make_move "white" "a7" 1 "C" Pentago.init
  = (Raise IndexError, with_current_player "W" Pentago.init).
Proof. repeat split; vm_compute; reflexivity. Qed.

(** ** The scan for five in a row *)

Lemma any_existsb {A : Type} (l : list A) (cond : A -> ST board bool)
      (f : A -> bool) (b : board) :
  (forall x, In x l -> cond x b = (Ret (f x), b)) ->
  any_ l cond b = (Ret (existsb f l), b).
Proof.
  induction l as [|x l IH]; intros H; simpl.
  - reflexivity.
  - unfold bind. rewrite (H x (or_introl eq_refl)).
    destruct (f x); [reflexivity|].
    apply IH. intros y Hy. apply H. right. exact Hy.
Qed.

Lemma all_color_line_is (color : string) (cells : list (Z * Z)) (b : board) :
  board_6x6 b ->
  Forall (fun rc => -6 <= fst rc < 6 /\ -6 <= snd rc < 6) cells ->
  GameBoard.all_color color cells b = (Ret (line_is b color cells), b).
Proof.
  intros Hb H. unfold GameBoard.all_color, line_is.
  induction H as [|rc cells [Hr Hc] _ IH]; simpl.
  - reflexivity.
  - unfold bind at 1. unfold cell_is at 1.
    destruct (reads_get2 _ _ Hr Hc b Hb) as [v Hv].
    unfold bind at 1. rewrite Hv. simpl.
    destruct (String.eqb v color); [exact IH | reflexivity].
Qed.

Lemma existsb_ext_in {A : Type} (f g : A -> bool) (l : list A) :
  (forall x, In x l -> f x = g x) -> existsb f l = existsb g l.
Proof.
  induction l as [|x l IH]; intros H; simpl; [reflexivity|].
  rewrite (H x (or_introl eq_refl)), IH; [reflexivity|].
  intros y Hy. apply H. right. exact Hy.
Qed.

Lemma existsb_of_map {A B : Type} (f : B -> bool) (g : A -> B) (l : list A) :
  existsb f (map g l) = existsb (fun x => f (g x)) l.
Proof. induction l as [|x l IH]; simpl; [reflexivity | now rewrite IH]. Qed.

Lemma existsb_of_flat_map {A B : Type} (f : B -> bool) (g : A -> list B) (l : list A) :
  existsb f (flat_map g l) = existsb (fun x => existsb f (g x)) l.
Proof.
  induction l as [|x l IH]; simpl; [reflexivity|].
  now rewrite existsb_app, IH.
Qed.

Lemma existsb_of_filter {A : Type} (p q : A -> bool) (l : list A) :
  existsb q (filter p l) = existsb (fun x => p x && q x) l.
Proof.
  induction l as [|x l IH]; simpl; [reflexivity|].
  destruct (p x); simpl; now rewrite IH.
Qed.

Lemma forallb_both {A : Type} (p q : A -> bool) (l : list A) :
  forallb (fun x => p x && q x) l = forallb p l && forallb q l.
Proof.
  induction l as [|x l IH]; simpl; [reflexivity|].
  rewrite IH. destruct (p x), (q x), (forallb p l); reflexivity.
Qed.

Lemma forallb_of_map {A B : Type} (f : B -> bool) (g : A -> B) (l : list A) :
  forallb f (map g l) = forallb (fun x => f (g x)) l.
Proof. induction l as [|x l IH]; simpl; [reflexivity | now rewrite IH]. Qed.

Lemma existsb_same_members {A : Type} (f : A -> bool) (l1 l2 : list A) :
  incl l1 l2 -> incl l2 l1 -> existsb f l1 = existsb f l2.
Proof.
  intros H12 H21. apply eq_true_iff_eq.
  rewrite !existsb_exists.
  split; intros (x & Hx & Hf); exists x; split; auto.
Qed.

Lemma all_members_incl (l1 l2 : list (list (Z * Z))) :
  all_members l1 l2 = true -> incl l1 l2.
Proof.
  unfold all_members. rewrite forallb_forall. intros H x Hx.
  specialize (H x Hx). destruct (in_dec line_eq_dec x l2); [assumption|discriminate].
Qed.

(** On a 6x6 board a cell of the grid read by the specification is the
    cell Python reads at the same indices. *)
Lemma cell_in_grid_cell_is (b : board) (color : string) (r c : Z) :
  board_6x6 b ->
  match cell_in_grid b r c with
  | Some v => String.eqb v color
  | None => false
  end = in_grid (r, c) && cell_is b color (r, c).
Proof.
  intros Hb. unfold cell_in_grid, in_grid. simpl fst; simpl snd.
  destruct ((0 <=? r) && (r <? 6) && (0 <=? c) && (c <? 6)) eqn:Hin;
    [|reflexivity].
  apply andb_true_iff in Hin. destruct Hin as [Hin Hc2].
  apply andb_true_iff in Hin. destruct Hin as [Hin Hc1].
  apply andb_true_iff in Hin. destruct Hin as [Hr1 Hr2].
  apply Z.leb_le in Hr1, Hc1. apply Z.ltb_lt in Hr2, Hc2.
  board_cells b Hb.
  assert (Hr : In r [0; 1; 2; 3; 4; 5]) by (simpl; lia).
  assert (Hc : In c [0; 1; 2; 3; 4; 5]) by (simpl; lia).
  simpl in Hr, Hc.
  repeat match goal with
         | H : _ \/ _ |- _ => destruct H
         | H : False |- _ => destruct H
         end; subst; reflexivity.
Qed.

Lemma spec_run_line_is (b : board) (color : string) (r c dr dc : Z) :
  board_6x6 b ->
  spec_run b color r c dr dc =
  forallb in_grid (run_cells r c dr dc) && line_is b color (run_cells r c dr dc).
Proof.
  intros Hb. unfold spec_run, line_is, run_cells.
  rewrite <- forallb_both, forallb_of_map.
  induction [0; 1; 2; 3; 4] as [|k ks IH]; simpl; [reflexivity|].
  now rewrite IH, (cell_in_grid_cell_is b color _ _ Hb).
Qed.

(** The specification's predicate is the test of the runs that lie in the
    grid. *)
Lemma spec_five_in_a_row_runs (b : board) (color : string) :
  board_6x6 b ->
  spec_five_in_a_row b color = existsb (line_is b color) runs_in_grid.
Proof.
  intros Hb. unfold spec_five_in_a_row, runs_in_grid.
  rewrite existsb_of_filter, existsb_of_flat_map.
  apply existsb_ext_in; intros r _.
  rewrite existsb_of_flat_map.
  apply existsb_ext_in; intros c _.
  rewrite existsb_of_map.
  apply existsb_ext_in; intros d _.
  now apply spec_run_line_is.
Qed.

(** One pair of nested loops of the scan. *)
Lemma scan_loops (color : string) (b : board) (outer inner : list Z)
      (cells : Z -> Z -> list (Z * Z)) :
  board_6x6 b ->
  (forall i j, In i outer -> In j inner ->
     Forall (fun rc => -6 <= fst rc < 6 /\ -6 <= snd rc < 6) (cells i j)) ->
  any_ outer (fun i => any_ inner (fun j => GameBoard.all_color color (cells i j))) b
  = (Ret (existsb (fun i => existsb (fun j => line_is b color (cells i j)) inner) outer),
     b).
Proof.
  intros Hb Hcells.
  apply any_existsb; intros i Hi.
  apply any_existsb; intros j Hj.
  apply all_color_line_is; [exact Hb | now apply Hcells].
Qed.

Ltac cells_in_range :=
  let i := fresh "i" in
  let j := fresh "j" in
  let Hi := fresh "Hi" in
  let Hj := fresh "Hj" in
  intros i j Hi Hj; in_range Hi; in_range Hj; repeat constructor; simpl; lia.

(** The scan is the test of its 36 index lists. *)
Lemma check_five_in_a_row_scanned (b : board) (color : string) :
  board_6x6 b ->
  GameBoard.check_five_in_a_row color b
  = (Ret (existsb (line_is b color) scanned_lines), b).
Proof.
  intros Hb. unfold GameBoard.check_five_in_a_row, scanned_lines.
  rewrite !existsb_app, !existsb_of_flat_map.
  repeat match goal with
         | |- context [existsb ?f (range ?lo ?hi)] =>
             match f with
             | (fun x => existsb _ (map _ _)) =>
                 rewrite (existsb_ext_in f _ (range lo hi)
                            (fun x _ => existsb_of_map (line_is b color) _ _))
             end
         end.
  unfold bind at 1.
  rewrite (scan_loops color b (range 0 6) (range 0 2)
             (fun row column =>
                [ (row, column); (row, column + 1); (row, column + 2);
                  (row, column + 3); (row, column + 4) ]) Hb)
    by cells_in_range.
  match goal with |- context [if ?found then _ else _] => destruct found end;
    [reflexivity|].
  unfold bind at 1.
  rewrite (scan_loops color b (range 0 6) (range 0 2)
             (fun column row =>
                [ (row, column); (row + 1, column); (row + 2, column);
                  (row + 3, column); (row + 4, column) ]) Hb)
    by cells_in_range.
  match goal with |- context [if ?found then _ else _] => destruct found end;
    [reflexivity|].
  unfold bind at 1.
  rewrite (scan_loops color b (range 0 2) (range 0 2)
             (fun row column =>
                [ (row, column); (row + 1, column + 1); (row + 2, column + 2);
                  (row + 3, column + 3); (row + 4, column + 4) ]) Hb)
    by cells_in_range.
  match goal with |- context [if ?found then _ else _] => destruct found end;
    [reflexivity|].
  unfold bind at 1.
  rewrite (scan_loops color b (range 0 2) (range 2 6)
             (fun row column =>
                [ (row, column); (row + 1, column - 1); (row + 2, column - 2);
                  (row + 3, column - 3); (row + 4, column - 4) ]) Hb)
    by cells_in_range.
  match goal with |- context [if ?found then _ else _] => destruct found end;
    reflexivity.
Qed.

Lemma scanned_lines_members :
  incl scanned_lines (runs_in_grid ++ wrapped_lines) /\
  incl (runs_in_grid ++ wrapped_lines) scanned_lines /\
  List.length runs_in_grid = 32%nat /\
  List.length scanned_lines = 36%nat.
Proof.
  split; [apply all_members_incl; vm_compute; reflexivity|].
  split; [apply all_members_incl; vm_compute; reflexivity|].
  split; vm_compute; reflexivity.
Qed.

(** X23: what the scan computes on every 6x6 board: it answers [True]
    exactly when five cells of [color] form one of the 32 runs within the
    grid or one of the four index lists that wrap around the left edge. *)
Lemma check_five_in_a_row_characterised (b : board) (color : string) :
  board_6x6 b ->
  GameBoard.check_five_in_a_row color b
  = (Ret (spec_five_in_a_row b color || existsb (line_is b color) wrapped_lines), b).
Proof.
  intros Hb.
  rewrite (check_five_in_a_row_scanned b color Hb).
  rewrite (spec_five_in_a_row_runs b color Hb), <- existsb_app.
  destruct scanned_lines_members as (H1 & H2 & _).
  now rewrite (existsb_same_members _ _ _ H1 H2).
Qed.

(** ** Where the code leaves the documented pipeline *)

(** C1 at White's opening move 'a1' with sub-board 1 turned clockwise: the
    placement completes no line, the rotation would carry the marble to
    (1, 2) and would complete no line either, and the board is far from
    full; yet the call leaves the marble at (0, 1), stores [False] as game
    state, logs nothing and does not switch the players. *)
Theorem first_move_is_not_rotated :
  Pentago._game_state Pentago.init = PStr "UNFINISHED" /\
  GameBoard.update_game_board "W" (0, 1) GameBoard.init = (Ret tt, board_after_a1) /\
  GameBoard.check_five_in_a_row "W" board_after_a1 = (Ret false, board_after_a1) /\
  GameBoard.rotate_sub_board 1 "C" board_after_a1 = (Ret tt, board_after_a1_rotated) /\
  GameBoard.check_five_in_a_row "W" board_after_a1_rotated
  = (Ret false, board_after_a1_rotated) /\
  GameBoard.check_five_in_a_row "B" board_after_a1_rotated
  = (Ret false, board_after_a1_rotated) /\
  GameBoard.is_full board_after_a1_rotated = (Ret false, board_after_a1_rotated) /\
  Pentago.make_move "white" "a1" 1 "C" Pentago.init
  = (Ret (PBool true),
     Pentago.mk board_after_a1 (Some "W") None (PBool false) []) /\
  board_after_a1 <> board_after_a1_rotated /\
  PBool false <> PStr "UNFINISHED".
Proof.
  repeat split; try (vm_compute; reflexivity); intros H; discriminate H.
Qed.

(** C3 at [board_wrapped]: no five white marbles lie in a line within the
    grid, yet the scan answers [True].  Its last loop starts at columns
    2..5 instead of 4..5, so from (0, 3) it reads (1, 2), (2, 1), (3, 0)
    and then column -1 of row 4, which is the cell (4, 5). *)
Theorem wrapped_run_is_reported :
  board_6x6 board_wrapped /\
  spec_five_in_a_row board_wrapped "W" = false /\
  GameBoard.check_five_in_a_row "W" board_wrapped = (Ret true, board_wrapped) /\
  GameBoard.all_color "W" [ (0, 3); (1, 2); (2, 1); (3, 0); (4, -1) ] board_wrapped
  = (Ret true, board_wrapped) /\
  get2 4 (-1) board_wrapped = get2 4 5 board_wrapped /\
  range 2 6 = [2; 3; 4; 5].
Proof.
  split; [split; [reflexivity | repeat constructor]|].
  repeat split; vm_compute; reflexivity.
Qed.

(** C7 on a new game: White's move to 'a1' returns [True]; Black's move to
    the same cell, which still holds White's marble, is answered with
    ['game is finished'] and not with ['position is not empty'], and the
    game state is [False]. *)
Theorem occupied_cell_is_answered_game_finished :
  play [ ("white", "a1", 1, "C"); ("black", "a1", 1, "C") ] Pentago.init
  = ([ Ret (PBool true); Ret (PStr "game is finished") ],
     Pentago.mk board_after_a1 (Some "B") None (PBool false) []) /\
  get2 0 1 board_after_a1 = (Ret "W", board_after_a1) /\
  Ret (PStr "game is finished") <> Ret (PStr "position is not empty") /\
  PBool false <> PStr "UNFINISHED".
Proof.
  repeat split; try (vm_compute; reflexivity); intros H; discriminate H.
Qed.

(** C8 at [game_before_draw], White playing 'c0' and turning sub-board 1
    clockwise: the placement completes no white line, the rotation would
    complete a line for White and one for Black, and the call stores
    [False] on the unrotated board instead of ['DRAW']. *)
Theorem rotation_draw_is_not_reached :
  Pentago._game_state game_before_draw = PStr "UNFINISHED" /\
  board_6x6 board_before_draw /\
  GameBoard.update_game_board "W" (2, 0) board_before_draw = (Ret tt, board_draw_placed) /\
  GameBoard.check_five_in_a_row "W" board_draw_placed = (Ret false, board_draw_placed) /\
  GameBoard.rotate_sub_board 1 "C" board_draw_placed = (Ret tt, board_draw_rotated) /\
  GameBoard.check_five_in_a_row "W" board_draw_rotated = (Ret true, board_draw_rotated) /\
  GameBoard.check_five_in_a_row "B" board_draw_rotated = (Ret true, board_draw_rotated) /\
  Pentago.make_move "white" "c0" 1 "C" game_before_draw
  = (Ret (PBool true),
     Pentago.mk board_draw_placed (Some "W") (Some "B") (PBool false) []) /\
  PBool false <> PStr "DRAW".
Proof.
  split; [reflexivity|].
  split; [split; [reflexivity | repeat constructor]|].
  repeat split; try (vm_compute; reflexivity); intros H; discriminate H.
Qed.

(** ** More on rotation *)

Ltac cases_of H :=
  simpl in H;
  repeat match type of H with
         | _ \/ _ => destruct H as [H | H]
         end; try contradiction; subst.

Ltac indicators :=
  repeat match goal with
         | |- context [if ?c then 1%nat else 0%nat] =>
             generalize (if c then 1%nat else 0%nat); intro
         end.

(** X1: a rotation of a 3x3 window of a 6x6 board, in either direction,
    returns normally, keeps the board 6x6 and changes no cell outside the
    window. *)
Theorem rotate_keeps_cells_outside
        (b : board) (sb : SubBoard.t) (rotation : string) :
  board_6x6 b -> window_in_grid sb -> rotation = "C" \/ rotation = "A" ->
  exists b',
    SubBoard.rotate sb rotation b = (Ret tt, b') /\
    board_6x6 b' /\
    forall r c, 0 <= r < 6 -> 0 <= c < 6 -> ~ in_window sb r c ->
      fst (get2 r c b') = fst (get2 r c b).
Proof.
  intros Hb Hsb Hrot.
  board_cells b Hb.
  destruct Hrot as [-> | ->];
    window_cases sb Hsb;
    (eexists; split; [vm_compute; reflexivity|];
     split; [split; [reflexivity | repeat constructor]|];
     intros i j Hi Hj Hout; unfold in_window in Hout; simpl in Hout;
     assert (Hi' : In i [0; 1; 2; 3; 4; 5]) by (simpl; lia);
     assert (Hj' : In j [0; 1; 2; 3; 4; 5]) by (simpl; lia);
     cases_of Hi'; cases_of Hj'; first [reflexivity | exfalso; lia]).
Qed.

(** X2: four quarter turns of a window in the same direction restore the
    board, and two clockwise turns give the same board as two
    counterclockwise turns. *)
Theorem rotate_four_times_is_identity
        (b : board) (sb : SubBoard.t) (rotation : string) :
  board_6x6 b -> window_in_grid sb -> rotation = "C" \/ rotation = "A" ->
  (SubBoard.rotate sb rotation ;; SubBoard.rotate sb rotation ;;
   SubBoard.rotate sb rotation ;; SubBoard.rotate sb rotation) b = (Ret tt, b) /\
  (SubBoard.rotate sb "C" ;; SubBoard.rotate sb "C") b
  = (SubBoard.rotate sb "A" ;; SubBoard.rotate sb "A") b.
Proof.
  intros Hb Hsb Hrot.
  board_cells b Hb.
  destruct Hrot as [-> | ->];
    window_cases sb Hsb; split; vm_compute; reflexivity.
Qed.

Lemma rotate_four_times_is_identity_witness :
  board_6x6 board_before_draw /\ window_in_grid (SubBoard.mk 0 0) /\
  (SubBoard.rotate (SubBoard.mk 0 0) "A" ;; SubBoard.rotate (SubBoard.mk 0 0) "A" ;;
   SubBoard.rotate (SubBoard.mk 0 0) "A" ;; SubBoard.rotate (SubBoard.mk 0 0) "A")
    board_before_draw = (Ret tt, board_before_draw) /\
  (SubBoard.rotate (SubBoard.mk 0 0) "C" ;; SubBoard.rotate (SubBoard.mk 0 0) "C")
    board_before_draw
  = (SubBoard.rotate (SubBoard.mk 0 0) "A" ;; SubBoard.rotate (SubBoard.mk 0 0) "A")
      board_before_draw.
Proof.
  assert (Hb : board_6x6 board_before_draw).
  { split; [reflexivity | repeat constructor]. }
  assert (Hw : window_in_grid (SubBoard.mk 0 0)).
  { unfold window_in_grid; simpl; lia. }
  split; [exact Hb | split; [exact Hw |]].
  exact (rotate_four_times_is_identity board_before_draw (SubBoard.mk 0 0) "A"
           Hb Hw (or_intror eq_refl)).
Defined.

Lemma rotate_keeps_cells_outside_witness :
  board_6x6 board_before_draw /\ window_in_grid (SubBoard.mk 0 0) /\
  ("C" = "C" \/ "C" = "A") /\
  exists b',
    SubBoard.rotate (SubBoard.mk 0 0) "C" board_before_draw = (Ret tt, b') /\
    board_6x6 b' /\
    forall r c, 0 <= r < 6 -> 0 <= c < 6 -> ~ in_window (SubBoard.mk 0 0) r c ->
      fst (get2 r c b') = fst (get2 r c board_before_draw).
Proof.
  assert (Hb : board_6x6 board_before_draw).
  { split; [reflexivity | repeat constructor]. }
  assert (Hw : window_in_grid (SubBoard.mk 0 0)).
  { unfold window_in_grid; simpl; lia. }
  split; [exact Hb | split; [exact Hw | split; [left; reflexivity|]]].
  exact (rotate_keeps_cells_outside board_before_draw (SubBoard.mk 0 0) "C"
           Hb Hw (or_introl eq_refl)).
Defined.

(** X3: a rotation argument that is neither ['C'] nor ['A'] makes
    [SubBoard.rotate] raise [UnboundLocalError] before it writes anything:
    the board is as it was. *)
Theorem rotate_with_unknown_direction
        (b : board) (sb : SubBoard.t) (rotation : string) :
  board_6x6 b -> window_in_grid sb -> rotation <> "C" -> rotation <> "A" ->
  SubBoard.rotate sb rotation b = (Raise UnboundLocalError, b).
Proof.
  intros Hb Hsb HC HA.
  apply String.eqb_neq in HC, HA.
  unfold SubBoard.rotate, SubBoard.rotated_board. rewrite HC, HA.
  board_cells b Hb.
  window_cases sb Hsb; vm_compute; reflexivity.
Qed.

Lemma rotate_with_unknown_direction_witness :
  board_6x6 board_wrapped /\ window_in_grid (SubBoard.mk 3 3) /\
  "c" <> "C" /\ "c" <> "A" /\
  SubBoard.rotate (SubBoard.mk 3 3) "c" board_wrapped
  = (Raise UnboundLocalError, board_wrapped).
Proof.
  assert (Hb : board_6x6 board_wrapped).
  { split; [reflexivity | repeat constructor]. }
  assert (Hw : window_in_grid (SubBoard.mk 3 3)).
  { unfold window_in_grid; simpl; lia. }
  assert (HC : "c" <> "C") by (intros H; discriminate H).
  assert (HA : "c" <> "A") by (intros H; discriminate H).
  split; [exact Hb | split; [exact Hw | split; [exact HC | split; [exact HA|]]]].
  exact (rotate_with_unknown_direction board_wrapped (SubBoard.mk 3 3) "c" Hb Hw HC HA).
Defined.

(** X4: a counterclockwise rotation puts the value of window cell (r, c)
    at window cell (2 - c, r): the cell (start_row + r, start_col + c) of
    the board before the rotation and the cell
    (start_row + 2 - c, start_col + r) of the board after it hold the same
    value, and what [get_sub_board] returns before and after is those
    cells. *)
Theorem rotate_counterclockwise_moves_cells
        (b : board) (sb : SubBoard.t) :
  board_6x6 b -> window_in_grid sb ->
  exists old new b',
    SubBoard.get_sub_board sb b = (Ret old, b) /\
    SubBoard.rotate sb "A" b = (Ret tt, b') /\
    SubBoard.get_sub_board sb b' = (Ret new, b') /\
    (forall r c, 0 <= r <= 2 -> 0 <= c <= 2 ->
       exists v, at2 old r c = Ret v /\ at2 new (2 - c) r = Ret v) /\
    (forall r c, 0 <= r <= 2 -> 0 <= c <= 2 ->
       exists v,
         fst (get2 (SubBoard._start_row sb + r) (SubBoard._start_col sb + c) b)
         = Ret v /\
         fst (get2 (SubBoard._start_row sb + (2 - c)) (SubBoard._start_col sb + r) b')
         = Ret v) /\
    (forall r c, 0 <= r <= 2 -> 0 <= c <= 2 ->
       at2 old r c
       = fst (get2 (SubBoard._start_row sb + r) (SubBoard._start_col sb + c) b) /\
       at2 new r c
       = fst (get2 (SubBoard._start_row sb + r) (SubBoard._start_col sb + c) b')).
Proof.
  intros Hb Hsb.
  board_cells b Hb.
  window_cases sb Hsb;
    (do 3 eexists;
     split; [vm_compute; reflexivity |];
     split; [vm_compute; reflexivity |];
     split; [vm_compute; reflexivity |];
     split;
     [ intros i j Hi Hj;
       assert (Hi' : i = 0 \/ i = 1 \/ i = 2) by lia;
       assert (Hj' : j = 0 \/ j = 1 \/ j = 2) by lia;
       destruct Hi' as [-> | [-> | ->]]; destruct Hj' as [-> | [-> | ->]];
       eexists; split; vm_compute; reflexivity
     | ];
     split;
     [ intros i j Hi Hj;
       assert (Hi' : i = 0 \/ i = 1 \/ i = 2) by lia;
       assert (Hj' : j = 0 \/ j = 1 \/ j = 2) by lia;
       destruct Hi' as [-> | [-> | ->]]; destruct Hj' as [-> | [-> | ->]];
       eexists; split; vm_compute; reflexivity
     | intros i j Hi Hj;
       assert (Hi' : i = 0 \/ i = 1 \/ i = 2) by lia;
       assert (Hj' : j = 0 \/ j = 1 \/ j = 2) by lia;
       destruct Hi' as [-> | [-> | ->]]; destruct Hj' as [-> | [-> | ->]];
       split; vm_compute; reflexivity ]).
Qed.

Lemma rotate_counterclockwise_moves_cells_witness :
  board_6x6 board_before_draw /\ window_in_grid (SubBoard.mk 0 0) /\
  exists old new b',
    SubBoard.get_sub_board (SubBoard.mk 0 0) board_before_draw
    = (Ret old, board_before_draw) /\
    SubBoard.rotate (SubBoard.mk 0 0) "A" board_before_draw = (Ret tt, b') /\
    SubBoard.get_sub_board (SubBoard.mk 0 0) b' = (Ret new, b') /\
    (forall r c, 0 <= r <= 2 -> 0 <= c <= 2 ->
       exists v, at2 old r c = Ret v /\ at2 new (2 - c) r = Ret v) /\
    (forall r c, 0 <= r <= 2 -> 0 <= c <= 2 ->
       exists v,
         fst (get2 (0 + r) (0 + c) board_before_draw) = Ret v /\
         fst (get2 (0 + (2 - c)) (0 + r) b') = Ret v) /\
    (forall r c, 0 <= r <= 2 -> 0 <= c <= 2 ->
       at2 old r c = fst (get2 (0 + r) (0 + c) board_before_draw) /\
       at2 new r c = fst (get2 (0 + r) (0 + c) b')).
Proof.
  assert (Hb : board_6x6 board_before_draw).
  { split; [reflexivity | repeat constructor]. }
  assert (Hw : window_in_grid (SubBoard.mk 0 0)).
  { unfold window_in_grid; simpl; lia. }
  split; [exact Hb | split; [exact Hw |]].
  exact (rotate_counterclockwise_moves_cells board_before_draw (SubBoard.mk 0 0) Hb Hw).
Defined.

(** ** Counting cells *)

Lemma count_cells_app (color : string) (l1 l2 : list string) :
  count_cells color (l1 ++ l2) = (count_cells color l1 + count_cells color l2)%nat.
Proof.
  induction l1 as [|x l1 IH]; simpl; [reflexivity|].
  rewrite IH. lia.
Qed.

Lemma existsb_count_cells (color : string) (row : list string) :
  existsb (String.eqb color) row = negb (count_cells color row =? 0)%nat.
Proof.
  induction row as [|x row IH]; simpl; [reflexivity|].
  rewrite IH, (String.eqb_sym color x).
  destruct (String.eqb x color); simpl; [reflexivity|].
  destruct (count_cells color row); reflexivity.
Qed.

Lemma no_empty_cell_count (b : board) :
  forallb (fun row => negb (existsb (String.eqb ".") row)) b
  = (count_on_board "." b =? 0)%nat.
Proof.
  unfold count_on_board.
  induction b as [|row b IH]; cbn [forallb List.concat]; [reflexivity|].
  rewrite IH, count_cells_app, existsb_count_cells, negb_involutive.
  destruct (count_cells "." row), (count_cells "." (List.concat b)); reflexivity.
Qed.

Lemma is_full_count (b : board) :
  GameBoard.is_full b = (Ret (count_on_board "." b =? 0)%nat, b).
Proof.
  unfold GameBoard.is_full, bind, get, ret. now rewrite no_empty_cell_count.
Qed.

(** X5: on a board of any shape [is_full] answers [True] exactly when no
    cell holds ['.'], and it leaves the board as it was. *)
Theorem is_full_counts_empty_cells (b : board) :
  GameBoard.is_full b = (Ret (count_on_board "." b =? 0)%nat, b) /\
  (fst (GameBoard.is_full b) = Ret true <->
   forall row cell, In row b -> In cell row -> cell <> ".").
Proof.
  split; [apply is_full_count|].
  assert (Hf : fst (GameBoard.is_full b)
               = Ret (forallb (fun row => negb (existsb (String.eqb ".") row)) b))
    by reflexivity.
  rewrite Hf. split.
  - intros H row cell Hrow Hcell ->.
    assert (Hb : forallb (fun row => negb (existsb (String.eqb ".") row)) b = true)
      by exact (f_equal (fun o => match o with Ret v => v | Raise _ => true end) H).
    rewrite forallb_forall in Hb. specialize (Hb row Hrow). cbv beta in Hb.
    assert (Hex : existsb (String.eqb ".") row = true).
    { apply existsb_exists. exists ".". split; [exact Hcell | reflexivity]. }
    rewrite Hex in Hb. discriminate Hb.
  - intros H. f_equal. apply forallb_forall. intros row Hrow.
    apply negb_true_iff. destruct (existsb (String.eqb ".") row) eqn:Hex;
      [|reflexivity].
    apply existsb_exists in Hex. destruct Hex as (cell & Hcell & Heq).
    apply String.eqb_eq in Heq. subst cell. now elim (H row "." Hrow Hcell).
Qed.

(** X6: a rotation keeps, for every value, the number of cells of the
    board that hold it; so it neither adds nor removes a marble and a board
    is full after the rotation exactly when it was full before. *)
Theorem rotate_keeps_counts
        (b : board) (sb : SubBoard.t) (rotation : string) :
  board_6x6 b -> window_in_grid sb -> rotation = "C" \/ rotation = "A" ->
  exists b',
    SubBoard.rotate sb rotation b = (Ret tt, b') /\
    (forall color, count_on_board color b' = count_on_board color b) /\
    fst (GameBoard.is_full b') = fst (GameBoard.is_full b).
Proof.
  intros Hb Hsb Hrot.
  assert (Hcounts : exists b',
             SubBoard.rotate sb rotation b = (Ret tt, b') /\
             forall color, count_on_board color b' = count_on_board color b).
  { board_cells b Hb.
    destruct Hrot as [-> | ->];
      window_cases sb Hsb;
      (eexists; split; [vm_compute; reflexivity|];
       intros color; unfold count_on_board; simpl; indicators; lia). }
  destruct Hcounts as (b' & Hrun & Hcount).
  exists b'. split; [exact Hrun|]. split; [exact Hcount|].
  rewrite (is_full_count b), (is_full_count b'). simpl. now rewrite Hcount.
Qed.

Lemma rotate_keeps_counts_witness :
  board_6x6 board_draw_placed /\ window_in_grid (SubBoard.mk 0 0) /\
  ("C" = "C" \/ "C" = "A") /\
  exists b',
    SubBoard.rotate (SubBoard.mk 0 0) "C" board_draw_placed = (Ret tt, b') /\
    (forall color, count_on_board color b' = count_on_board color board_draw_placed) /\
    fst (GameBoard.is_full b') = fst (GameBoard.is_full board_draw_placed).
Proof.
  assert (Hb : board_6x6 board_draw_placed).
  { split; [reflexivity | repeat constructor]. }
  assert (Hw : window_in_grid (SubBoard.mk 0 0)).
  { unfold window_in_grid; simpl; lia. }
  split; [exact Hb | split; [exact Hw | split; [left; reflexivity|]]].
  exact (rotate_keeps_counts board_draw_placed (SubBoard.mk 0 0) "C"
           Hb Hw (or_introl eq_refl)).
Defined.

(** ** Sub-boards by number *)

Lemma sub_board_lookup_fails (k : Z) :
  ~ In k [1; 2; 3; 4] ->
  dict_getitem Z.eqb GameBoard._sub_boards k = Raise KeyError.
Proof.
  intros Hk. simpl in Hk. unfold GameBoard._sub_boards. simpl.
  destruct (Z.eqb_spec k 1); [lia|].
  destruct (Z.eqb_spec k 2); [lia|].
  destruct (Z.eqb_spec k 3); [lia|].
  destruct (Z.eqb_spec k 4); [lia|].
  reflexivity.
Qed.

(** X7: a sub-board number other than 1, 2, 3 and 4 makes
    [rotate_sub_board] and [get_sub_board] raise [KeyError], whatever the
    rotation and the board are; the board is not touched. *)
Theorem unknown_sub_board_raises_KeyError
        (k : Z) (rotation : string) (b : board) :
  ~ In k [1; 2; 3; 4] ->
  GameBoard.rotate_sub_board k rotation b = (Raise KeyError, b) /\
  GameBoard.get_sub_board k b = (Raise KeyError, b).
Proof.
  intros Hk.
  unfold GameBoard.rotate_sub_board, GameBoard.get_sub_board, bind, pure.
  rewrite (sub_board_lookup_fails k Hk). split; reflexivity.
Qed.

Lemma unknown_sub_board_raises_KeyError_witness :
  ~ In 0 [1; 2; 3; 4] /\
  GameBoard.rotate_sub_board 0 "C" GameBoard.init = (Raise KeyError, GameBoard.init) /\
  GameBoard.get_sub_board 0 GameBoard.init = (Raise KeyError, GameBoard.init).
Proof.
  assert (Hk : ~ In 0 [1; 2; 3; 4]) by (simpl; lia).
  split; [exact Hk|].
  exact (unknown_sub_board_raises_KeyError 0 "C" GameBoard.init Hk).
Defined.

Lemma rotate_sub_board_rotate_witness :
  board_6x6 board_draw_placed /\
  In (1, SubBoard.mk 0 0) GameBoard._sub_boards /\
  ("C" = "C" \/ "C" = "A") /\
  GameBoard.rotate_sub_board 1 "C" board_draw_placed
  = SubBoard.rotate (SubBoard.mk 0 0) "C" board_draw_placed.
Proof.
  assert (Hb : board_6x6 board_draw_placed).
  { split; [reflexivity | repeat constructor]. }
  assert (Hk : In (1, SubBoard.mk 0 0) GameBoard._sub_boards).
  { left; reflexivity. }
  split; [exact Hb | split; [exact Hk | split; [left; reflexivity|]]].
  exact (rotate_sub_board_rotate board_draw_placed 1 (SubBoard.mk 0 0) "C"
           Hb Hk (or_introl eq_refl)).
Defined.

Lemma update_board_from_sub_boards_id_witness :
  board_6x6 board_wrapped /\
  GameBoard.update_board_from_sub_boards board_wrapped = (Ret tt, board_wrapped).
Proof.
  assert (Hb : board_6x6 board_wrapped).
  { split; [reflexivity | repeat constructor]. }
  split; [exact Hb|].
  exact (update_board_from_sub_boards_id board_wrapped Hb).
Defined.

(** ** Placement *)

Lemma get2_column_out_of_range (b : board) (r c : Z) :
  board_6x6 b -> 0 <= r < 6 -> 6 <= c ->
  get2 r c b = (Raise IndexError, b).
Proof.
  intros Hb Hr Hc. board_cells b Hb.
  assert (Hr' : In r [0; 1; 2; 3; 4; 5]) by (simpl; lia).
  assert (H1 : (0 <=? c) && (c <? 6) = false).
  { apply andb_false_iff. right. apply Z.ltb_ge. lia. }
  assert (H2 : (-6 <=? c) && (c <? 0) = false).
  { apply andb_false_iff. right. apply Z.ltb_ge. lia. }
  cases_of Hr'; unfold get2, getitem; simpl; unfold py_index; simpl;
    rewrite H1, H2; reflexivity.
Qed.

(** X10: [update_game_board] on a 6x6 board, at a position of the grid,
    writes the marble into that cell without looking at what the cell
    held, and changes no other cell.  A row of the grid with a column
    index from 6 on raises [IndexError] and changes nothing. *)
Theorem update_game_board_writes_one_cell
        (b : board) (marble_color : string) (r c : Z) :
  board_6x6 b -> 0 <= r < 6 ->
  (0 <= c < 6 ->
   exists b',
     GameBoard.update_game_board marble_color (r, c) b = (Ret tt, b') /\
     board_6x6 b' /\
     fst (get2 r c b') = Ret marble_color /\
     forall r' c', 0 <= r' < 6 -> 0 <= c' < 6 -> (r', c') <> (r, c) ->
       fst (get2 r' c' b') = fst (get2 r' c' b)) /\
  (6 <= c ->
   GameBoard.update_game_board marble_color (r, c) b = (Raise IndexError, b)).
Proof.
  intros Hb Hr. split.
  - intros Hc.
    board_cells b Hb.
    assert (Hr' : In r [0; 1; 2; 3; 4; 5]) by (simpl; lia).
    assert (Hc' : In c [0; 1; 2; 3; 4; 5]) by (simpl; lia).
    cases_of Hr'; cases_of Hc';
      (eexists; split; [reflexivity|];
       split; [split; [reflexivity | repeat constructor]|];
       split; [reflexivity|];
       intros i j Hi Hj Hne;
       assert (Hi' : In i [0; 1; 2; 3; 4; 5]) by (simpl; lia);
       assert (Hj' : In j [0; 1; 2; 3; 4; 5]) by (simpl; lia);
       cases_of Hi'; cases_of Hj'; first [reflexivity | now elim Hne]).
  - intros Hc. unfold GameBoard.update_game_board, set2.
    pose proof (get2_column_out_of_range b r c Hb Hr Hc) as Hget.
    unfold get2 in Hget.
    destruct (getitem b r) as [row|e] eqn:Hrow.
    + unfold setitem.
      unfold getitem in Hget.
      destruct (py_index (List.length row) c) as [k|] eqn:Hk; [|reflexivity].
      destruct (nth_error row k) eqn:Hnth; [discriminate Hget|].
      exfalso.
      board_cells b Hb.
      assert (Hr' : In r [0; 1; 2; 3; 4; 5]) by (simpl; lia).
      assert (H1 : (0 <=? c) && (c <? 6) = false).
      { apply andb_false_iff. right. apply Z.ltb_ge. lia. }
      assert (H2 : (-6 <=? c) && (c <? 0) = false).
      { apply andb_false_iff. right. apply Z.ltb_ge. lia. }
      cases_of Hr'; vm_compute in Hrow; injection Hrow as <-;
        unfold py_index in Hk; simpl in Hk; rewrite H1, H2 in Hk; discriminate Hk.
    + exfalso. revert Hrow. board_cells b Hb.
      assert (Hr' : In r [0; 1; 2; 3; 4; 5]) by (simpl; lia).
      cases_of Hr'; intros Hrow; vm_compute in Hrow; discriminate Hrow.
Qed.

Lemma update_game_board_writes_one_cell_witness :
  board_6x6 board_before_draw /\ 0 <= 2 < 6 /\
  (exists b',
     GameBoard.update_game_board "W" (2, 0) board_before_draw = (Ret tt, b') /\
     board_6x6 b' /\
     fst (get2 2 0 b') = Ret "W" /\
     forall r' c', 0 <= r' < 6 -> 0 <= c' < 6 -> (r', c') <> (2, 0) ->
       fst (get2 r' c' b') = fst (get2 r' c' board_before_draw)) /\
  GameBoard.update_game_board "W" (2, 7) board_before_draw
  = (Raise IndexError, board_before_draw).
Proof.
  assert (Hb : board_6x6 board_before_draw).
  { split; [reflexivity | repeat constructor]. }
  assert (Hr : 0 <= 2 < 6) by lia.
  split; [exact Hb | split; [exact Hr|]].
  split.
  - apply (proj1 (update_game_board_writes_one_cell board_before_draw "W" 2 0 Hb Hr)).
    lia.
  - apply (proj2 (update_game_board_writes_one_cell board_before_draw "W" 2 7 Hb Hr)).
    lia.
Defined.

(** ** What the scan needs to answer [True] *)

Lemma check_five_in_a_row_characterised_witness :
  board_6x6 board_wrapped /\
  GameBoard.check_five_in_a_row "W" board_wrapped
  = (Ret (spec_five_in_a_row board_wrapped "W"
          || existsb (line_is board_wrapped "W") wrapped_lines), board_wrapped).
Proof.
  assert (Hb : board_6x6 board_wrapped).
  { split; [reflexivity | repeat constructor]. }
  split; [exact Hb|].
  exact (check_five_in_a_row_characterised board_wrapped "W" Hb).
Defined.

Ltac five_cells H :=
  unfold line_is in H; cbn [forallb] in H;
  repeat match type of H with
         | _ && _ = true =>
             let H1 := fresh "Hcell" in
             apply andb_true_iff in H; destruct H as [H1 H];
             vm_compute in H1; apply String.eqb_eq in H1
         end;
  clear H.

Lemma scan_needs_five_cells (b : board) (color : string) :
  board_6x6 b ->
  fst (GameBoard.check_five_in_a_row color b) = Ret true ->
  (5 <= count_on_board color b)%nat.
Proof.
  intros Hb.
  rewrite (check_five_in_a_row_scanned b color Hb). simpl fst.
  intros H.
  assert (Hex : existsb (line_is b color) scanned_lines = true)
    by exact (f_equal (fun o => match o with Ret v => v | Raise _ => true end) H).
  clear H. apply existsb_exists in Hex. destruct Hex as (line & Hline & Hall).
  board_cells b Hb.
  vm_compute in Hline.
  repeat match type of Hline with
         | _ \/ _ => destruct Hline as [Hline | Hline]
         end; try contradiction; subst line;
    five_cells Hall; subst;
    unfold count_on_board; cbn [List.concat app count_cells];
    rewrite !String.eqb_refl; indicators; lia.
Qed.

Lemma few_cells_no_win (b : board) (color : string) :
  board_6x6 b -> (count_on_board color b < 5)%nat ->
  GameBoard.check_end_conditions color b = (Ret (PBool false), b).
Proof.
  intros Hb Hfew. unfold GameBoard.check_end_conditions, bind.
  pose proof (scan_needs_five_cells b color Hb) as Hneed.
  destruct (reads_check_five_in_a_row color b Hb) as [won Hwon].
  rewrite Hwon in Hneed |- *. destruct won; [|reflexivity].
  specialize (Hneed eq_refl). lia.
Qed.

(** X12: on a 6x6 board the scan answers [True] for a colour only when at
    least five cells hold that colour; with fewer than five marbles of a
    colour on the board [check_end_conditions] answers [False] for it. *)
Theorem five_in_a_row_needs_five_cells (b : board) (color : string) :
  board_6x6 b ->
  (fst (GameBoard.check_five_in_a_row color b) = Ret true ->
   (5 <= count_on_board color b)%nat) /\
  ((count_on_board color b < 5)%nat ->
   GameBoard.check_end_conditions color b = (Ret (PBool false), b)).
Proof.
  intros Hb. split.
  - now apply scan_needs_five_cells.
  - now apply few_cells_no_win.
Qed.

Lemma five_in_a_row_needs_five_cells_witness :
  board_6x6 board_before_draw /\
  (fst (GameBoard.check_five_in_a_row "W" board_before_draw) = Ret true ->
   (5 <= count_on_board "W" board_before_draw)%nat) /\
  (count_on_board "W" board_before_draw < 5)%nat /\
  GameBoard.check_end_conditions "W" board_before_draw
  = (Ret (PBool false), board_before_draw).
Proof.
  assert (Hb : board_6x6 board_before_draw).
  { split; [reflexivity | repeat constructor]. }
  assert (Hfew : (count_on_board "W" board_before_draw < 5)%nat).
  { vm_compute. lia. }
  destruct (five_in_a_row_needs_five_cells board_before_draw "W" Hb) as [Hneed Hfalse].
  split; [exact Hb | split; [exact Hneed | split; [exact Hfew | exact (Hfalse Hfew)]]].
Defined.

(** ** More on position decoding *)

Lemma lower_ascii_idempotent (a : ascii) : lower_ascii (lower_ascii a) = lower_ascii a.
Proof. destruct a as [[] [] [] [] [] [] [] []]; reflexivity. Qed.

Lemma convert_position_two_characters (l d : ascii) (rest : string) :
  Pentago.convert_position (String l (String d rest)) =
  if letter_a_to_f l then
    if decimal_digit d
    then Ret (Z.of_nat (nat_of_ascii (lower_ascii l) - 97), Z.of_nat (nat_of_ascii d - 48))
    else Raise ValueError
  else Raise KeyError.
Proof.
  unfold Pentago.convert_position, str_getitem. simpl list_ascii_of_string.
  rewrite getitem_0, letter_lookup.
  destruct (letter_a_to_f l); [|reflexivity].
  rewrite getitem_1, digit_value.
  destruct (decimal_digit d); reflexivity.
Qed.

(** X13: [convert_position] reads the first two characters only and
    ignores the case of the letter: the result for a string is the result
    for its lower-cased letter followed by its second character. *)
Theorem convert_position_ignores_case_and_tail (l d : ascii) (rest : string) :
  Pentago.convert_position (String l (String d rest))
  = Pentago.convert_position (String (lower_ascii l) (String d "")) /\
  Pentago.convert_position (String (upper_ascii l) (String d rest))
  = Pentago.convert_position (String l (String d "")).
Proof.
  rewrite !convert_position_two_characters.
  unfold letter_a_to_f. rewrite lower_ascii_idempotent.
  split; [reflexivity|].
  replace (lower_ascii (upper_ascii l)) with (lower_ascii l); [reflexivity|].
  destruct l as [[] [] [] [] [] [] [] []]; reflexivity.
Qed.

(** ** Rejected moves *)

Lemma is_valid_move_answer (p : Z * Z) (player : option string) (self : Pentago.t) :
  fst (Pentago.is_valid_move p player self) =
  if py_ne (Pentago._game_state self) (PStr "UNFINISHED")
  then Ret (PStr "game is finished")
  else if opt_str_eq player (Pentago._opponent self)
       then Ret (PStr "not this player's turn")
       else match fst (get2 (fst p) (snd p) (Pentago._board self)) with
            | Ret cell =>
                if negb (String.eqb cell ".")
                then Ret (PStr "position is not empty")
                else Ret (PBool true)
            | Raise e => Raise e
            end.
Proof.
  destruct p as [row column]. destruct self as [b cur opp st log].
  unfold Pentago.is_valid_move, bind. cbn.
  destruct (py_ne st (PStr "UNFINISHED")); cbn; [reflexivity|].
  destruct (opt_str_eq player opp); cbn; [reflexivity|].
  unfold get2, Pentago.on_board. cbn.
  destruct (getitem b row) as [cells|e]; cbn; [|reflexivity].
  destruct (getitem cells column) as [cell|e]; cbn; [|reflexivity].
  destruct (negb (String.eqb cell ".")); reflexivity.
Qed.

Lemma py_ne_UNFINISHED_false : py_ne (PStr "UNFINISHED") (PStr "UNFINISHED") = false.
Proof. reflexivity. Qed.

(** X14: on an unfinished game a move by the colour stored as opponent is
    answered ['not this player's turn'].  Board, opponent, game state and
    log stay as they were, but the current player has been overwritten, so
    afterwards current player and opponent are the same colour. *)
Theorem move_of_the_opponent_is_rejected
        (marble_color position : string) (sub_board : Z) (rotation : string)
        (self : Pentago.t) (p : Z * Z) :
  Pentago.convert_position position = Ret p ->
  Pentago._game_state self = PStr "UNFINISHED" ->
  Pentago._opponent self = Some (marble_of marble_color) ->
  Pentago.make_move marble_color position sub_board rotation self
  = (Ret (PStr "not this player's turn"),
     with_current_player (marble_of marble_color) self) /\
  Pentago._current_player
    (snd (Pentago.make_move marble_color position sub_board rotation self))
  = Pentago._opponent
      (snd (Pentago.make_move marble_color position sub_board rotation self)).
Proof.
  intros Hp Hst Hopp.
  assert (Hanswer :
    fst (Pentago.is_valid_move p (Some (marble_of marble_color))
           (with_current_player (marble_of marble_color) self))
    = Ret (PStr "not this player's turn")).
  { rewrite is_valid_move_answer.
    cbn [with_current_player Pentago._game_state Pentago._opponent Pentago._board
           fst snd].
    rewrite Hst, py_ne_UNFINISHED_false, Hopp. simpl.
    now rewrite String.eqb_refl. }
  assert (Hrun :
    Pentago.make_move marble_color position sub_board rotation self
    = (Ret (PStr "not this player's turn"),
       with_current_player (marble_of marble_color) self)).
  { rewrite (make_move_rejected _ _ sub_board rotation _ _ Hp).
    - now rewrite Hanswer.
    - rewrite Hanswer. intros H; discriminate H. }
  split; [exact Hrun|].
  rewrite Hrun. simpl. now rewrite Hopp.
Qed.

Lemma move_of_the_opponent_is_rejected_witness :
  Pentago.convert_position "d3" = Ret (3, 3) /\
  Pentago._game_state game_before_draw = PStr "UNFINISHED" /\
  Pentago._opponent game_before_draw = Some (marble_of "black") /\
  Pentago.make_move "black" "d3" 4 "A" game_before_draw
  = (Ret (PStr "not this player's turn"),
     with_current_player (marble_of "black") game_before_draw) /\
  Pentago._current_player (snd (Pentago.make_move "black" "d3" 4 "A" game_before_draw))
  = Pentago._opponent (snd (Pentago.make_move "black" "d3" 4 "A" game_before_draw)).
Proof.
  split; [reflexivity | split; [reflexivity | split; [reflexivity|]]].
  exact (move_of_the_opponent_is_rejected "black" "d3" 4 "A" game_before_draw (3, 3)
           eq_refl eq_refl eq_refl).
Defined.

(** X15: on an unfinished game, when it is not the opponent who moves, a
    move to a cell that holds anything but ['.'] is answered
    ['position is not empty']; the board, the opponent, the game state and
    the log stay as they were. *)
Theorem move_to_occupied_cell_is_rejected
        (marble_color position : string) (sub_board : Z) (rotation : string)
        (self : Pentago.t) (p : Z * Z) (cell : string) :
  Pentago.convert_position position = Ret p ->
  Pentago._game_state self = PStr "UNFINISHED" ->
  Pentago._opponent self <> Some (marble_of marble_color) ->
  fst (get2 (fst p) (snd p) (Pentago._board self)) = Ret cell ->
  cell <> "." ->
  Pentago.make_move marble_color position sub_board rotation self
  = (Ret (PStr "position is not empty"),
     with_current_player (marble_of marble_color) self).
Proof.
  intros Hp Hst Hopp Hcell Hne.
  assert (Hturn : opt_str_eq (Some (marble_of marble_color)) (Pentago._opponent self)
                  = false).
  { destruct (Pentago._opponent self) as [o|]; simpl; [|reflexivity].
    apply String.eqb_neq. intros Heq. apply Hopp. now rewrite Heq. }
  assert (Hanswer :
    fst (Pentago.is_valid_move p (Some (marble_of marble_color))
           (with_current_player (marble_of marble_color) self))
    = Ret (PStr "position is not empty")).
  { rewrite is_valid_move_answer.
    cbn [with_current_player Pentago._game_state Pentago._opponent Pentago._board
           fst snd].
    rewrite Hst, py_ne_UNFINISHED_false, Hturn, Hcell.
    apply String.eqb_neq in Hne. now rewrite Hne. }
  rewrite (make_move_rejected _ _ sub_board rotation _ _ Hp).
  - now rewrite Hanswer.
  - rewrite Hanswer. intros H; discriminate H.
Qed.

Lemma move_to_occupied_cell_is_rejected_witness :
  Pentago.convert_position "b1" = Ret (1, 1) /\
  Pentago._game_state game_before_draw = PStr "UNFINISHED" /\
  Pentago._opponent game_before_draw <> Some (marble_of "white") /\
  fst (get2 1 1 (Pentago._board game_before_draw)) = Ret "B" /\
  "B" <> "." /\
  Pentago.make_move "white" "b1" 1 "C" game_before_draw
  = (Ret (PStr "position is not empty"),
     with_current_player (marble_of "white") game_before_draw).
Proof.
  assert (Hopp : Pentago._opponent game_before_draw <> Some (marble_of "white")).
  { vm_compute. intros H; discriminate H. }
  assert (Hne : "B" <> ".") by (intros H; discriminate H).
  split; [reflexivity | split; [reflexivity | split; [exact Hopp|]]].
  split; [reflexivity | split; [exact Hne|]].
  exact (move_to_occupied_cell_is_rejected "white" "b1" 1 "C" game_before_draw (1, 1)
           "B" eq_refl eq_refl Hopp eq_refl Hne).
Defined.

(** X16: on an unfinished game with a 6x6 board, when it is not the
    opponent who moves, a position with a letter 'a'..'f' and a digit
    6..9 raises [IndexError] from the board access of the validation; the
    current player has been overwritten by then, nothing else has
    changed. *)
Theorem move_to_column_6_to_9_raises
        (marble_color : string) (l d : ascii) (rest : string) (sub_board : Z)
        (rotation : string) (self : Pentago.t) :
  board_6x6 (Pentago._board self) ->
  Pentago._game_state self = PStr "UNFINISHED" ->
  Pentago._opponent self <> Some (marble_of marble_color) ->
  letter_a_to_f l = true ->
  (54 <= nat_of_ascii d <= 57)%nat ->
  Pentago.make_move marble_color (String l (String d rest)) sub_board rotation self
  = (Raise IndexError, with_current_player (marble_of marble_color) self).
Proof.
  intros Hb Hst Hopp Hl Hd.
  assert (Hdigit : decimal_digit d = true).
  { unfold decimal_digit. apply andb_true_iff.
    split; apply Nat.leb_le; lia. }
  pose proof (convert_position_two_characters l d rest) as Hp.
  rewrite Hl, Hdigit in Hp.
  assert (Hturn : opt_str_eq (Some (marble_of marble_color)) (Pentago._opponent self)
                  = false).
  { destruct (Pentago._opponent self) as [o|]; simpl; [|reflexivity].
    apply String.eqb_neq. intros Heq. apply Hopp. now rewrite Heq. }
  assert (Hanswer :
    fst (Pentago.is_valid_move
           (Z.of_nat (nat_of_ascii (lower_ascii l) - 97), Z.of_nat (nat_of_ascii d - 48))
           (Some (marble_of marble_color))
           (with_current_player (marble_of marble_color) self))
    = Raise IndexError).
  { rewrite is_valid_move_answer.
    cbn [with_current_player Pentago._game_state Pentago._opponent Pentago._board
           fst snd].
    rewrite Hst, py_ne_UNFINISHED_false, Hturn.
    rewrite (get2_column_out_of_range _ _ _ Hb); [reflexivity | | lia].
    pose proof (letter_a_to_f_bounds l Hl). lia. }
  rewrite (make_move_rejected _ _ sub_board rotation _ _ Hp).
  - now rewrite Hanswer.
  - rewrite Hanswer. intros H; discriminate H.
Qed.

Lemma move_to_column_6_to_9_raises_witness :
  board_6x6 (Pentago._board Pentago.init) /\
  Pentago._game_state Pentago.init = PStr "UNFINISHED" /\
  Pentago._opponent Pentago.init <> Some (marble_of "white") /\
  letter_a_to_f "a" = true /\
  (54 <= nat_of_ascii "6" <= 57)%nat /\
  Pentago.make_move "white" "a6" 1 "C" Pentago.init
  = (Raise IndexError, with_current_player (marble_of "white") Pentago.init).
Proof.
  assert (Hopp : Pentago._opponent Pentago.init <> Some (marble_of "white")).
  { simpl. intros H; discriminate H. }
  assert (Hd : (54 <= nat_of_ascii "6" <= 57)%nat) by (vm_compute; lia).
  split; [exact init_6x6 | split; [reflexivity | split; [exact Hopp|]]].
  split; [reflexivity | split; [exact Hd|]].
  exact (move_to_column_6_to_9_raises "white" "a"%char "6"%char "" 1 "C" Pentago.init
           init_6x6 eq_refl Hopp eq_refl Hd).
Defined.

(** ** The part of [make_move] that runs *)

Lemma bind_ext {S A B : Type} (m : ST S A) (k1 k2 : A -> ST S B) (s : S) :
  (forall a s', k1 a s' = k2 a s') -> bind m k1 s = bind m k2 s.
Proof.
  intros H. unfold bind. destruct (m s) as [[a|e] s']; [apply H | reflexivity].
Qed.

Lemma check_end_conditions_bool (color : string) (b : board) :
  (exists won b', GameBoard.check_end_conditions color b = (Ret (PBool won), b')) \/
  (exists e b', GameBoard.check_end_conditions color b = (Raise e, b')).
Proof.
  unfold GameBoard.check_end_conditions, bind.
  destruct (GameBoard.check_five_in_a_row color b) as [[[|]|e] b'];
    [left | left | right]; do 2 eexists; reflexivity.
Qed.

Lemma bind_check_end {B : Type} (color : string) (k1 k2 : pyval -> ST Pentago.t B)
      (s : Pentago.t) :
  (forall won s', k1 (PBool won) s' = k2 (PBool won) s') ->
  bind (Pentago.on_board (GameBoard.check_end_conditions color)) k1 s
  = bind (Pentago.on_board (GameBoard.check_end_conditions color)) k2 s.
Proof.
  intros H. unfold bind, Pentago.on_board.
  destruct (check_end_conditions_bool color (Pentago._board s))
    as [(won & b' & ->) | (e & b' & ->)]; [apply H | reflexivity].
Qed.

(** X17: [make_move] never gets past the check that follows the
    placement, on any engine: it is the method cut after line 110.  So the
    sub-board and rotation arguments have no influence on what the call
    returns or on the engine it leaves, no sub-board is ever rotated by it,
    and it never writes the log or the opponent. *)
Theorem make_move_stops_after_placement
        (marble_color position : string) (sub_board : Z) (rotation : string)
        (self : Pentago.t) :
  Pentago.make_move marble_color position sub_board rotation self
  = make_move_up_to_check marble_color position self /\
  (forall sub_board' rotation',
     Pentago.make_move marble_color position sub_board' rotation' self
     = Pentago.make_move marble_color position sub_board rotation self) /\
  Pentago._game_log
    (snd (Pentago.make_move marble_color position sub_board rotation self))
  = Pentago._game_log self /\
  Pentago._opponent
    (snd (Pentago.make_move marble_color position sub_board rotation self))
  = Pentago._opponent self.
Proof.
  assert (Hcut : forall sb rot,
             Pentago.make_move marble_color position sb rot self
             = make_move_up_to_check marble_color position self).
  { intros sb rot. unfold Pentago.make_move, make_move_up_to_check.
    apply bind_ext; intros p s0.
    apply bind_ext; intros u0 s1.
    apply bind_ext; intros player s2.
    apply bind_ext; intros v s3.
    destruct (negb (is_True v)); [reflexivity|].
    apply bind_ext; intros u1 s4.
    apply bind_check_end; intros won s5. reflexivity. }
  split; [apply Hcut|]. split.
  - intros sb' rot'. now rewrite !Hcut.
  - rewrite Hcut. unfold make_move_up_to_check, bind, pure.
    destruct (Pentago.convert_position position) as [p|e]; [|split; reflexivity].
    unfold Pentago.set_current_player, Pentago.get_current_player.
    match goal with
    | |- context [Pentago.is_valid_move ?p ?pl ?s] =>
        pose proof (is_valid_move_keeps_state p pl s) as Hkeep;
        destruct (Pentago.is_valid_move p pl s) as [[v|e] s1]
    end; simpl in Hkeep; subst s1; [|split; reflexivity].
    destruct (negb (is_True v)); [split; reflexivity|].
    unfold Pentago.on_board. cbn [Pentago._board].
    destruct (GameBoard.update_game_board _ p (Pentago._board self)) as [[u|e] b1];
      [|split; reflexivity].
    cbn [Pentago._board].
    destruct (GameBoard.check_end_conditions _ b1) as [[w|e] b2]; split; reflexivity.
Qed.

(** ** Placement and the number of marbles *)

Lemma count_cells_replace_nth (color x y : string) (k : nat) (l : list string) :
  nth_error l k = Some y ->
  (count_cells color (replace_nth k x l) + is_color color y
   = count_cells color l + is_color color x)%nat.
Proof.
  unfold is_color.
  revert k; induction l as [|z l IH]; intros [|k]; simpl; try discriminate.
  - intros H; injection H as ->. lia.
  - intros H. specialize (IH k H). lia.
Qed.

Lemma count_on_board_replace_nth (color : string) (row row' : list string)
      (k : nat) (b : board) :
  nth_error b k = Some row ->
  (count_on_board color (replace_nth k row' b) + count_cells color row
   = count_on_board color b + count_cells color row')%nat.
Proof.
  unfold count_on_board.
  revert k; induction b as [|r b IH]; intros [|k]; simpl; try discriminate.
  - intros H; injection H as ->. rewrite !count_cells_app. lia.
  - intros H. specialize (IH k H). rewrite !count_cells_app. lia.
Qed.

Lemma set2_counts (color v y : string) (r c : Z) (b b' : board) :
  fst (get2 r c b) = Ret y ->
  set2 r c v b = (Ret tt, b') ->
  (count_on_board color b' + is_color color y
   = count_on_board color b + is_color color v)%nat.
Proof.
  unfold get2, set2.
  destruct (getitem b r) as [row|e] eqn:Hrow; [|intros H; discriminate H].
  simpl fst. intros Hcell.
  destruct (getitem_Ret _ _ _ Hrow) as (k & Hk & Hnth).
  destruct (getitem_Ret _ _ _ Hcell) as (j & Hj & Hnthj).
  unfold setitem. rewrite Hj, Hk.
  intros H; injection H as <-.
  pose proof (count_on_board_replace_nth color row (replace_nth j v row) k b Hnth).
  pose proof (count_cells_replace_nth color v y j row Hnthj).
  lia.
Qed.

(** X11: a placement changes the counts of the board by exactly one cell:
    when the target cell held [y], the number of cells holding a value
    goes down by one if that value is [y] and up by one if it is the
    marble placed.  This holds on a board of any shape, whatever the cell
    held. *)
Theorem update_game_board_counts
        (color marble_color y : string) (r c : Z) (b b' : board) :
  fst (get2 r c b) = Ret y ->
  GameBoard.update_game_board marble_color (r, c) b = (Ret tt, b') ->
  (count_on_board color b' + is_color color y
   = count_on_board color b + is_color color marble_color)%nat.
Proof.
  intros Hcell Hset. exact (set2_counts color marble_color y r c b b' Hcell Hset).
Qed.

Lemma update_game_board_counts_witness :
  fst (get2 2 0 board_before_draw) = Ret "." /\
  GameBoard.update_game_board "W" (2, 0) board_before_draw = (Ret tt, board_draw_placed) /\
  (count_on_board "W" board_draw_placed + is_color "W" "."
   = count_on_board "W" board_before_draw + is_color "W" "W")%nat /\
  (count_on_board "." board_draw_placed + is_color "." "."
   = count_on_board "." board_before_draw + is_color "." "W")%nat.
Proof.
  split; [reflexivity | split; [reflexivity|]].
  split.
  - exact (update_game_board_counts "W" "W" "." 2 0 board_before_draw
             board_draw_placed eq_refl eq_refl).
  - exact (update_game_board_counts "." "W" "." 2 0 board_before_draw
             board_draw_placed eq_refl eq_refl).
Defined.

(** ** What a game played through [make_move] can reach *)

Lemma marble_of_cases (marble_color : string) :
  marble_of marble_color = "W" \/ marble_of marble_color = "B".
Proof.
  unfold marble_of. destruct (String.eqb (upper marble_color) "WHITE"); auto.
Qed.

Lemma run_call_keeps_new_game_facts (c : call) (self : Pentago.t) :
  board_6x6 (Pentago._board self) ->
  Pentago._game_log self = [] ->
  Pentago._opponent self = None ->
  (Pentago._game_state self = PStr "UNFINISHED" ->
   Pentago._board self = GameBoard.init) ->
  (35 <= count_on_board "." (Pentago._board self))%nat ->
  Pentago._game_log (snd (run_call c self)) = [] /\
  Pentago._opponent (snd (run_call c self)) = None /\
  (Pentago._game_state (snd (run_call c self)) = PStr "UNFINISHED" ->
   Pentago._board (snd (run_call c self)) = GameBoard.init) /\
  (35 <= count_on_board "." (Pentago._board (snd (run_call c self))))%nat /\
  fst (run_call c self) <> Ret (PStr "not this player's turn").
Proof.
  intros Hb Hlog Hopp Hinit Hcount.
  destruct c as [[[marble_color position] sub_board] rotation].
  unfold run_call.
  destruct (Pentago.convert_position position) as [p|e] eqn:Hp.
  - destruct (outcome_true_dec
                (fst (Pentago.is_valid_move p (Some (marble_of marble_color))
                        (with_current_player (marble_of marble_color) self))))
      as [Hyes|Hno].
    + destruct (make_move_placed marble_color position sub_board rotation self p
                  Hb Hp Hyes) as (b & won & Hupd & _ & _ & _ & ->).
      destruct (is_valid_move_True _ _ _ Hyes) as (Hst & _ & Hcell & _).
      simpl in Hst, Hcell. simpl.
      split; [exact Hlog|]. split; [exact Hopp|].
      split; [intros H; discriminate H|].
      split; [|intros H; discriminate H].
      destruct p as [row column]. simpl in Hcell.
      assert (Hread : fst (get2 row column (Pentago._board self)) = Ret ".")
        by now rewrite Hcell.
      pose proof (set2_counts "." (marble_of marble_color) "." row column
                    (Pentago._board self) b Hread Hupd) as Hset.
      rewrite (Hinit Hst) in Hset.
      replace (count_on_board "." GameBoard.init) with 36%nat in Hset by reflexivity.
      unfold is_color in Hset.
      destruct (String.eqb (marble_of marble_color) "."); simpl in Hset; lia.
    + rewrite (make_move_rejected _ _ sub_board rotation _ _ Hp Hno). simpl.
      split; [exact Hlog|]. split; [exact Hopp|].
      split; [exact Hinit|]. split; [exact Hcount|].
      rewrite is_valid_move_answer.
      cbn [with_current_player Pentago._game_state Pentago._opponent Pentago._board
             fst snd].
      rewrite Hopp.
      destruct (py_ne (Pentago._game_state self) (PStr "UNFINISHED"));
        [intros H; discriminate H|].
      cbn [opt_str_eq].
      destruct (fst (get2 (fst p) (snd p) (Pentago._board self))) as [cell|e];
        [|intros H; discriminate H].
      destruct (negb (String.eqb cell ".")); intros H; discriminate H.
  - rewrite (make_move_undecodable _ _ sub_board rotation _ _ Hp). simpl.
    split; [exact Hlog|]. split; [exact Hopp|].
    split; [exact Hinit|]. split; [exact Hcount|].
    intros H; discriminate H.
Qed.

Lemma play_keeps_new_game_facts (calls : list call) (self : Pentago.t) :
  board_6x6 (Pentago._board self) ->
  Pentago._game_log self = [] ->
  Pentago._opponent self = None ->
  (Pentago._game_state self = PStr "UNFINISHED" ->
   Pentago._board self = GameBoard.init) ->
  (35 <= count_on_board "." (Pentago._board self))%nat ->
  Pentago._game_log (snd (play calls self)) = [] /\
  Pentago._opponent (snd (play calls self)) = None /\
  (35 <= count_on_board "." (Pentago._board (snd (play calls self))))%nat /\
  ~ In (Ret (PStr "not this player's turn")) (fst (play calls self)).
Proof.
  revert self; induction calls as [|c calls IH];
    intros self Hb Hlog Hopp Hinit Hcount.
  - simpl. repeat split; try assumption. tauto.
  - rewrite play_cons. cbn [fst snd].
    destruct (run_call_keeps_new_game_facts c self Hb Hlog Hopp Hinit Hcount)
      as (Hlog' & Hopp' & Hinit' & Hcount' & Hanswer).
    assert (Hb' : board_6x6 (Pentago._board (snd (run_call c self))))
      by now apply run_call_cases.
    destruct (IH _ Hb' Hlog' Hopp' Hinit' Hcount') as (H1 & H2 & H3 & H4).
    split; [exact H1|]. split; [exact H2|]. split; [exact H3|].
    intros [Hhere | Hlater]; [now elim Hanswer | exact (H4 Hlater)].
Qed.

(** X18: whatever calls of [make_move] are made on a new engine, the log
    stays empty, the opponent stays [None], the board stays 6x6 with at
    most one marble on it, and no call is ever answered
    ['not this player's turn']. *)
Theorem game_keeps_log_empty_and_one_marble (calls : list call) :
  Pentago._game_log (game_after calls) = [] /\
  Pentago._opponent (game_after calls) = None /\
  board_6x6 (Pentago._board (game_after calls)) /\
  (35 <= count_on_board "." (Pentago._board (game_after calls)))%nat /\
  ~ In (Ret (PStr "not this player's turn")) (fst (play calls Pentago.init)).
Proof.
  unfold game_after.
  destruct (play_keeps_new_game_facts calls Pentago.init init_6x6 eq_refl eq_refl)
    as (H1 & H2 & H3 & H4).
  - intros _. reflexivity.
  - vm_compute. lia.
  - split; [exact H1|]. split; [exact H2|].
    split; [apply play_6x6, init_6x6|]. split; [exact H3 | exact H4].
Qed.

Lemma get2_init (r c : Z) :
  0 <= r < 6 -> 0 <= c < 6 -> get2 r c GameBoard.init = (Ret ".", GameBoard.init).
Proof.
  intros Hr Hc.
  assert (Hr' : In r [0; 1; 2; 3; 4; 5]) by (simpl; lia).
  assert (Hc' : In c [0; 1; 2; 3; 4; 5]) by (simpl; lia).
  cases_of Hr'; cases_of Hc'; reflexivity.
Qed.

(** X19: on a new engine a move by any colour to any cell 'a0'..'f5'
    succeeds: it returns [True], puts the one marble on the board, stores
    [False] as game state, and leaves opponent and log as they were. *)
Theorem opening_move_succeeds
        (marble_color : string) (l d : ascii) (rest : string) (sub_board : Z)
        (rotation : string) :
  letter_a_to_f l = true ->
  (48 <= nat_of_ascii d <= 53)%nat ->
  exists b,
    GameBoard.update_game_board (marble_of marble_color)
      (Z.of_nat (nat_of_ascii (lower_ascii l) - 97), Z.of_nat (nat_of_ascii d - 48))
      GameBoard.init = (Ret tt, b) /\
    Pentago.make_move marble_color (String l (String d rest)) sub_board rotation
      Pentago.init
    = (Ret (PBool true),
       Pentago.mk b (Some (marble_of marble_color)) None (PBool false) []) /\
    count_on_board (marble_of marble_color) b = 1%nat /\
    count_on_board "." b = 35%nat.
Proof.
  intros Hl Hd.
  assert (Hdigit : decimal_digit d = true).
  { unfold decimal_digit. apply andb_true_iff. split; apply Nat.leb_le; lia. }
  pose proof (convert_position_two_characters l d rest) as Hp.
  rewrite Hl, Hdigit in Hp.
  set (row := Z.of_nat (nat_of_ascii (lower_ascii l) - 97)) in *.
  set (column := Z.of_nat (nat_of_ascii d - 48)) in *.
  assert (Hrow : 0 <= row < 6) by (pose proof (letter_a_to_f_bounds l Hl); lia).
  assert (Hcolumn : 0 <= column < 6) by (unfold column; lia).
  assert (Hcell : get2 row column GameBoard.init = (Ret ".", GameBoard.init))
    by now apply get2_init.
  assert (Hvalid :
    fst (Pentago.is_valid_move (row, column) (Some (marble_of marble_color))
           (with_current_player (marble_of marble_color) Pentago.init))
    = Ret (PBool true)).
  { rewrite is_valid_move_answer.
    cbn [with_current_player Pentago._game_state Pentago._opponent Pentago._board
           Pentago.init fst snd].
    rewrite py_ne_UNFINISHED_false. cbn [opt_str_eq]. now rewrite Hcell. }
  destruct (make_move_placed marble_color _ sub_board rotation Pentago.init
              (row, column) init_6x6 Hp Hvalid)
    as (b & won & Hupd & Hwon & Hb & _ & Hrun).
  cbn [Pentago._board Pentago._opponent Pentago._game_log Pentago.init] in Hupd, Hrun.
  assert (Hread : fst (get2 row column GameBoard.init) = Ret ".") by now rewrite Hcell.
  pose proof (set2_counts (marble_of marble_color) (marble_of marble_color) "."
                row column GameBoard.init b Hread Hupd) as Hmarbles.
  pose proof (set2_counts "." (marble_of marble_color) "."
                row column GameBoard.init b Hread Hupd) as Hempty.
  assert (Hone : count_on_board (marble_of marble_color) b = 1%nat /\
                 count_on_board "." b = 35%nat).
  { replace (count_on_board "." GameBoard.init) with 36%nat in Hempty by reflexivity.
    destruct (marble_of_cases marble_color) as [Hm | Hm];
      rewrite Hm in Hmarbles, Hempty |- *;
      [ replace (count_on_board "W" GameBoard.init) with 0%nat in Hmarbles
          by reflexivity
      | replace (count_on_board "B" GameBoard.init) with 0%nat in Hmarbles
          by reflexivity ];
      unfold is_color in Hmarbles, Hempty;
      cbn [String.eqb Ascii.eqb Bool.eqb andb] in Hmarbles, Hempty; split; lia. }
  assert (Hfalse : won = false).
  { pose proof (few_cells_no_win b (marble_of marble_color) Hb) as Hfew.
    rewrite Hwon in Hfew. destruct Hone as [Hone _].
    assert (Hlt : (count_on_board (marble_of marble_color) b < 5)%nat) by lia.
    specialize (Hfew Hlt). now injection Hfew. }
  subst won. exists b.
  split; [exact Hupd|]. split; [exact Hrun|]. exact Hone.
Qed.

Lemma opening_move_succeeds_witness :
  letter_a_to_f "E" = true /\
  (48 <= nat_of_ascii "5" <= 53)%nat /\
  exists b,
    GameBoard.update_game_board (marble_of "Black") (4, 5) GameBoard.init = (Ret tt, b) /\
    Pentago.make_move "Black" "E5x" 7 "?" Pentago.init
    = (Ret (PBool true), Pentago.mk b (Some (marble_of "Black")) None (PBool false) []) /\
    count_on_board (marble_of "Black") b = 1%nat /\
    count_on_board "." b = 35%nat.
Proof.
  assert (Hd : (48 <= nat_of_ascii "5" <= 53)%nat) by (vm_compute; lia).
  split; [reflexivity | split; [exact Hd|]].
  exact (opening_move_succeeds "Black" "E"%char "5"%char "x" 7 "?" eq_refl Hd).
Defined.

(** ** Switching the players *)

(** X20: when the current player is ['W'] or ['B'], [switch_player] makes
    the other colour the current player and the previous current player
    the opponent, whatever the opponent was, and a second switch gives the
    turn back; board, game state and log are not touched.  When the
    current player is anything else, [None] included, nothing changes. *)
Theorem switch_player_alternates (self : Pentago.t) :
  (In (Pentago._current_player self) [Some "W"; Some "B"] ->
   fst (Pentago.switch_player self) = Ret tt /\
   Pentago._opponent (snd (Pentago.switch_player self)) = Pentago._current_player self /\
   In (Pentago._current_player (snd (Pentago.switch_player self))) [Some "W"; Some "B"] /\
   Pentago._current_player (snd (Pentago.switch_player self))
   <> Pentago._current_player self /\
   Pentago._current_player (snd (Pentago.switch_player (snd (Pentago.switch_player self))))
   = Pentago._current_player self /\
   Pentago._board (snd (Pentago.switch_player self)) = Pentago._board self /\
   Pentago._game_state (snd (Pentago.switch_player self)) = Pentago._game_state self /\
   Pentago._game_log (snd (Pentago.switch_player self)) = Pentago._game_log self) /\
  (~ In (Pentago._current_player self) [Some "W"; Some "B"] ->
   Pentago.switch_player self = (Ret tt, self)).
Proof.
  destruct self as [b cur opp st log]. simpl. split.
  - intros [<- | [<- | []]]; vm_compute;
      repeat split; auto; intros H; discriminate H.
  - intros Hnot.
    destruct cur as [m|]; [|reflexivity].
    assert (HB : String.eqb m "B" = false).
    { apply String.eqb_neq. intros ->. apply Hnot. auto. }
    assert (HW : String.eqb m "W" = false).
    { apply String.eqb_neq. intros ->. apply Hnot. auto. }
    unfold Pentago.switch_player, bind, Pentago.get_current_player.
    cbn [Pentago._current_player opt_str_eq]. rewrite HB.
    cbn [Pentago._current_player opt_str_eq]. rewrite HW. reflexivity.
Qed.

(** ** The log *)

(** X21: the two logging methods never raise and only append: after any
    sequence of [log_move] and [log_game_state] calls the log is the old
    log, unchanged and in its order, followed by one entry per call. *)
Theorem logging_only_appends (calls : list log_call) (log : GameLog.t) :
  exists entries,
    for_ calls run_log_call log = (Ret tt, (log ++ entries)%list) /\
    List.length entries = List.length calls.
Proof.
  revert log; induction calls as [|c calls IH]; intros log.
  - exists []. split; [|reflexivity]. simpl. unfold ret. now rewrite app_nil_r.
  - cbn [for_]. unfold bind at 1.
    assert (Hone : exists entry, run_log_call c log = (Ret tt, (log ++ [entry])%list)).
    { destruct c as [m p k r | st]; simpl;
        unfold GameLog.log_move, GameLog.log_game_state, bind, get, put;
        eexists; reflexivity. }
    destruct Hone as [entry ->].
    destruct (IH (log ++ [entry])%list) as (entries & Hrun & Hlen).
    exists (entry :: entries). split.
    + rewrite Hrun. now rewrite <- app_assoc.
    + simpl. now rewrite Hlen.
Qed.

(** ** Reading a sub-board *)

(** X22: on a 6x6 board [get_sub_board] of a window of the grid returns
    three rows of three cells, the cell (i, j) of the result being the
    cell (start_row + i, start_col + j) of the board, and leaves the board
    as it was. *)
Theorem get_sub_board_reads_window (b : board) (sb : SubBoard.t) :
  board_6x6 b -> window_in_grid sb ->
  exists sub,
    SubBoard.get_sub_board sb b = (Ret sub, b) /\
    List.length sub = 3%nat /\
    Forall (fun row => List.length row = 3%nat) sub /\
    forall i j, 0 <= i <= 2 -> 0 <= j <= 2 ->
      at2 sub i j
      = fst (get2 (SubBoard._start_row sb + i) (SubBoard._start_col sb + j) b).
Proof.
  intros Hb Hsb.
  board_cells b Hb.
  window_cases sb Hsb;
    (eexists; split; [vm_compute; reflexivity|];
     split; [reflexivity|];
     split; [repeat constructor|];
     intros i j Hi Hj;
     assert (Hi' : i = 0 \/ i = 1 \/ i = 2) by lia;
     assert (Hj' : j = 0 \/ j = 1 \/ j = 2) by lia;
     destruct Hi' as [-> | [-> | ->]]; destruct Hj' as [-> | [-> | ->]];
     reflexivity).
Qed.

Lemma get_sub_board_reads_window_witness :
  board_6x6 board_wrapped /\ window_in_grid (SubBoard.mk 3 3) /\
  exists sub,
    SubBoard.get_sub_board (SubBoard.mk 3 3) board_wrapped = (Ret sub, board_wrapped) /\
    List.length sub = 3%nat /\
    Forall (fun row => List.length row = 3%nat) sub /\
    forall i j, 0 <= i <= 2 -> 0 <= j <= 2 ->
      at2 sub i j = fst (get2 (3 + i) (3 + j) board_wrapped).
Proof.
  assert (Hb : board_6x6 board_wrapped).
  { split; [reflexivity | repeat constructor]. }
  assert (Hw : window_in_grid (SubBoard.mk 3 3)).
  { unfold window_in_grid; simpl; lia. }
  split; [exact Hb | split; [exact Hw |]].
  exact (get_sub_board_reads_window board_wrapped (SubBoard.mk 3 3) Hb Hw).
Defined.

(** ** The colour argument *)

Lemma letter_ignoring_case (a : ascii) :
  Ascii.eqb (lower_ascii a) "w" = Ascii.eqb (upper_ascii a) "W" /\
  Ascii.eqb (lower_ascii a) "h" = Ascii.eqb (upper_ascii a) "H" /\
  Ascii.eqb (lower_ascii a) "i" = Ascii.eqb (upper_ascii a) "I" /\
  Ascii.eqb (lower_ascii a) "t" = Ascii.eqb (upper_ascii a) "T" /\
  Ascii.eqb (lower_ascii a) "e" = Ascii.eqb (upper_ascii a) "E".
Proof. destruct a as [[] [] [] [] [] [] [] []]; repeat split; reflexivity. Qed.

(** A string is ['white'] up to the case of its letters exactly when its
    upper-casing is ['WHITE']. *)
Lemma white_ignoring_case (s : string) :
  String.eqb (lower s) "white" = String.eqb (upper s) "WHITE".
Proof.
  unfold lower, upper.
  destruct s as [|a1 [|a2 [|a3 [|a4 [|a5 [|a6 s]]]]]];
    cbn [map_string String.eqb]; try reflexivity;
    destruct (letter_ignoring_case a1) as (-> & _);
    try destruct (letter_ignoring_case a2) as (_ & -> & _);
    try destruct (letter_ignoring_case a3) as (_ & _ & -> & _);
    try destruct (letter_ignoring_case a4) as (_ & _ & _ & -> & _);
    try destruct (letter_ignoring_case a5) as (_ & _ & _ & _ & ->);
    reflexivity.
Qed.

Lemma make_move_cut (marble_color position : string) (sub_board : Z)
      (rotation : string) (self : Pentago.t) :
  Pentago.make_move marble_color position sub_board rotation self
  = make_move_up_to_check marble_color position self.
Proof.
  unfold Pentago.make_move, make_move_up_to_check.
  apply bind_ext; intros p s0.
  apply bind_ext; intros u0 s1.
  apply bind_ext; intros player s2.
  apply bind_ext; intros v s3.
  destruct (negb (is_True v)); [reflexivity|].
  apply bind_ext; intros u1 s4.
  apply bind_check_end; intros won s5. reflexivity.
Qed.

Lemma any_keeps_board {A : Type} (l : list A) (cond : A -> ST board bool) :
  (forall x b, snd (cond x b) = b) -> forall b, snd (any_ l cond b) = b.
Proof.
  intros H. induction l as [|x l IH]; intros b; simpl; [reflexivity|].
  unfold bind. specialize (H x b).
  destruct (cond x b) as [[found|e] b']; simpl in H; subst b'; [|reflexivity].
  destruct found; [reflexivity | apply IH].
Qed.

Lemma all_color_keeps_board (color : string) (cells : list (Z * Z)) (b : board) :
  snd (GameBoard.all_color color cells b) = b.
Proof.
  unfold GameBoard.all_color.
  induction cells as [|rc cells IH]; simpl; [reflexivity|].
  unfold bind at 1. unfold bind at 1. unfold get2.
  destruct (getitem b (fst rc)) as [row|e]; [|reflexivity].
  destruct (getitem row (snd rc)) as [v|e]; [|reflexivity].
  unfold ret at 1. destruct (String.eqb v color); [exact IH | reflexivity].
Qed.

Lemma check_end_conditions_keeps_board (color : string) (b : board) :
  snd (GameBoard.check_end_conditions color b) = b.
Proof.
  assert (Hscan : snd (GameBoard.check_five_in_a_row color b) = b).
  { unfold GameBoard.check_five_in_a_row.
    repeat match goal with
           | |- snd (bind (any_ ?l ?cond) ?k ?b0) = ?b0 =>
               let H := fresh "H" in
               assert (H : snd (any_ l cond b0) = b0)
                 by (apply any_keeps_board; intros; apply any_keeps_board;
                     intros; apply all_color_keeps_board);
               unfold bind at 1;
               destruct (any_ l cond b0) as [[[|]|?] ?]; simpl in H; subst;
               [reflexivity | | reflexivity]
           end.
    reflexivity. }
  unfold GameBoard.check_end_conditions, bind.
  destruct (GameBoard.check_five_in_a_row color b) as [[[|]|e] b'];
    simpl in Hscan; subst b'; reflexivity.
Qed.

(** What a call does with the marble it derived from its colour argument,
    on any engine. *)
Lemma make_move_plays_marble (marble_color position : string) (sub_board : Z)
      (rotation : string) (self : Pentago.t) (p : Z * Z) :
  Pentago.convert_position position = Ret p ->
  Pentago._current_player
    (snd (Pentago.make_move marble_color position sub_board rotation self))
  = Some (marble_of marble_color) /\
  (fst (Pentago.is_valid_move p (Some (marble_of marble_color))
          (with_current_player (marble_of marble_color) self)) = Ret (PBool true) ->
   fst (get2 (fst p) (snd p)
          (Pentago._board
             (snd (Pentago.make_move marble_color position sub_board rotation self))))
   = Ret (marble_of marble_color) /\
   (board_6x6 (Pentago._board self) ->
    fst (Pentago.make_move marble_color position sub_board rotation self)
    = Ret (PBool true))).
Proof.
  intros Hp.
  destruct (outcome_true_dec
              (fst (Pentago.is_valid_move p (Some (marble_of marble_color))
                      (with_current_player (marble_of marble_color) self))))
    as [Hyes|Hno].
  - destruct (is_valid_move_True _ _ _ Hyes) as (_ & _ & Hcell & Hrun).
    cbn [with_current_player Pentago._board] in Hcell.
    destruct (set2_after_get2 _ _ _ (marble_of marble_color) _ _ Hcell)
      as (b' & Hset & Hget & _).
    assert (Hupd : GameBoard.update_game_board (marble_of marble_color) p
                     (Pentago._board self) = (Ret tt, b')).
    { destruct p as [row column]. exact Hset. }
    pose proof (check_end_conditions_keeps_board (marble_of marble_color) b') as Hkeep.
    assert (Hres : exists o gs,
      Pentago.make_move marble_color position sub_board rotation self
      = (o, Pentago.mk b' (Some (marble_of marble_color)) (Pentago._opponent self)
                       gs (Pentago._game_log self))).
    { rewrite make_move_cut.
      unfold make_move_up_to_check, bind at 1, pure. rewrite Hp.
      unfold bind at 1. unfold Pentago.set_current_player at 1.
      unfold bind at 1. unfold Pentago.get_current_player at 1.
      fold (marble_of marble_color).
      change (Pentago.mk (Pentago._board self) (Some (marble_of marble_color))
                (Pentago._opponent self) (Pentago._game_state self)
                (Pentago._game_log self))
        with (with_current_player (marble_of marble_color) self).
      cbn [Pentago._current_player with_current_player].
      unfold bind at 1.
      change (Pentago.mk (Pentago._board self) (Some (marble_of marble_color))
                (Pentago._opponent self) (Pentago._game_state self)
                (Pentago._game_log self))
        with (with_current_player (marble_of marble_color) self).
      rewrite Hrun. cbn [is_True negb].
      unfold bind at 1. unfold Pentago.on_board at 1.
      cbn [Pentago._board with_current_player]. rewrite Hupd.
      unfold bind at 1. unfold Pentago.on_board at 1.
      cbn [Pentago._board].
      destruct (GameBoard.check_end_conditions (marble_of marble_color) b')
        as [[gs|e] b2]; simpl in Hkeep; subst b2; do 2 eexists; reflexivity. }
    assert (Hboth :
      Pentago._current_player
        (snd (Pentago.make_move marble_color position sub_board rotation self))
      = Some (marble_of marble_color) /\
      Pentago._board
        (snd (Pentago.make_move marble_color position sub_board rotation self)) = b').
    { destruct Hres as (o & gs & ->). split; reflexivity. }
    destruct Hboth as [Hcur Hboard].
    split; [exact Hcur|]. intros _. split.
    + rewrite Hboard, Hget. reflexivity.
    + intros Hb.
      destruct (make_move_placed marble_color position sub_board rotation self p
                  Hb Hp Hyes) as (b & won & _ & _ & _ & _ & ->).
      reflexivity.
  - rewrite (make_move_rejected _ _ sub_board rotation _ _ Hp Hno).
    split; [reflexivity|]. intros Hyes. now elim Hno.
Qed.

(** C10: [make_move] compares its colour argument with ['white'] without
    regard to the case of the letters: a string is ['white'] up to case
    exactly when its upper-casing is ['WHITE'], and then the call is the
    call with ['white'] and plays ['W'].  Every other string, whatever it
    is, is played as Black: the call is the call with ['black'], the
    engine records ['B'] as current player as soon as the position
    decodes, and when the move passes validation the cell holds ['B']
    afterwards (and the call returns [True] on a 6x6 board).  The colour
    is never a reason to reject the call. *)
Theorem color_is_white_ignoring_case_else_black
        (marble_color position : string) (sub_board : Z) (rotation : string)
        (self : Pentago.t) :
  (lower marble_color = "white" <-> upper marble_color = "WHITE") /\
  (upper marble_color = "WHITE" ->
   marble_of marble_color = "W" /\
   Pentago.make_move marble_color position sub_board rotation self
   = Pentago.make_move "white" position sub_board rotation self /\
   forall p, Pentago.convert_position position = Ret p ->
     Pentago._current_player
       (snd (Pentago.make_move marble_color position sub_board rotation self))
     = Some "W" /\
     (fst (Pentago.is_valid_move p (Some "W") (with_current_player "W" self))
      = Ret (PBool true) ->
      fst (get2 (fst p) (snd p)
             (Pentago._board
                (snd (Pentago.make_move marble_color position sub_board rotation self))))
      = Ret "W" /\
      (board_6x6 (Pentago._board self) ->
       fst (Pentago.make_move marble_color position sub_board rotation self)
       = Ret (PBool true)))) /\
  (upper marble_color <> "WHITE" ->
   marble_of marble_color = "B" /\
   Pentago.make_move marble_color position sub_board rotation self
   = Pentago.make_move "black" position sub_board rotation self /\
   forall p, Pentago.convert_position position = Ret p ->
     Pentago._current_player
       (snd (Pentago.make_move marble_color position sub_board rotation self))
     = Some "B" /\
     (fst (Pentago.is_valid_move p (Some "B") (with_current_player "B" self))
      = Ret (PBool true) ->
      fst (get2 (fst p) (snd p)
             (Pentago._board
                (snd (Pentago.make_move marble_color position sub_board rotation self))))
      = Ret "B" /\
      (board_6x6 (Pentago._board self) ->
       fst (Pentago.make_move marble_color position sub_board rotation self)
       = Ret (PBool true)))).
Proof.
  split; [|split].
  - rewrite <- !String.eqb_eq. now rewrite white_ignoring_case.
  - intros Hcolor.
    assert (Hyes : String.eqb (upper marble_color) "WHITE" = true)
      by (apply String.eqb_eq; exact Hcolor).
    assert (Hmarble : marble_of marble_color = "W")
      by (unfold marble_of; now rewrite Hyes).
    split; [exact Hmarble|]. split.
    + unfold Pentago.make_move. rewrite Hyes. reflexivity.
    + intros p Hp.
      pose proof (make_move_plays_marble marble_color position sub_board rotation
                    self p Hp) as H.
      rewrite Hmarble in H. exact H.
  - intros Hcolor.
    assert (Hnot : String.eqb (upper marble_color) "WHITE" = false)
      by (apply String.eqb_neq; exact Hcolor).
    assert (Hmarble : marble_of marble_color = "B")
      by (unfold marble_of; now rewrite Hnot).
    split; [exact Hmarble|]. split.
    + unfold Pentago.make_move. rewrite Hnot. reflexivity.
    + intros p Hp.
      pose proof (make_move_plays_marble marble_color position sub_board rotation
                    self p Hp) as H.
      rewrite Hmarble in H. exact H.
Qed.

Lemma color_is_white_ignoring_case_else_black_witness :
  lower "WhItE" = "white" /\ upper "WhItE" = "WHITE" /\
  upper "purple" <> "WHITE" /\
  Pentago.make_move "WhItE" "c4" 2 "A" Pentago.init
  = Pentago.make_move "white" "c4" 2 "A" Pentago.init /\
  fst (get2 2 4 (Pentago._board (snd (Pentago.make_move "WhItE" "c4" 2 "A" Pentago.init))))
  = Ret "W" /\
  Pentago.make_move "purple" "c4" 2 "A" Pentago.init
  = Pentago.make_move "black" "c4" 2 "A" Pentago.init /\
  Pentago._current_player (snd (Pentago.make_move "purple" "c4" 2 "A" Pentago.init))
  = Some "B" /\
  fst (get2 2 4 (Pentago._board (snd (Pentago.make_move "purple" "c4" 2 "A" Pentago.init))))
  = Ret "B" /\
  fst (Pentago.make_move "purple" "c4" 2 "A" Pentago.init) = Ret (PBool true).
Proof.
  assert (Hpurple : upper "purple" <> "WHITE").
  { vm_compute. intros H; discriminate H. }
  destruct (color_is_white_ignoring_case_else_black "WhItE" "c4" 2 "A" Pentago.init)
    as (Hcase & Hwhite & _).
  destruct (Hwhite eq_refl) as (_ & Hsame_w & Hplay_w).
  destruct (Hplay_w (2, 4) eq_refl) as (_ & Hplaced_w).
  destruct (Hplaced_w eq_refl) as (Hcell_w & _).
  destruct (color_is_white_ignoring_case_else_black "purple" "c4" 2 "A" Pentago.init)
    as (_ & _ & Hblack).
  destruct (Hblack Hpurple) as (_ & Hsame_b & Hplay_b).
  destruct (Hplay_b (2, 4) eq_refl) as (Hcur_b & Hplaced_b).
  destruct (Hplaced_b eq_refl) as (Hcell_b & Htrue_b).
  split; [reflexivity | split; [reflexivity | split; [exact Hpurple|]]].
  split; [exact Hsame_w | split; [exact Hcell_w|]].
  split; [exact Hsame_b | split; [exact Hcur_b|]].
  split; [exact Hcell_b | exact (Htrue_b init_6x6)].
Defined.
